(** * whoop-copilot: token cache, OAuth callback listener and join/aggregation

    A shallow embedding of [config.py], [oauth_whoop.py] and [analyzer.py].

    - JSON values read from disk or from the token endpoint are the inductive
      [json]; a Python dict is a [gmap string json].
    - Python exceptions are the [Raise] case of [result].
    - Amounts and scores are rationals ([Q]): every finite float is a
      rational and comparisons are exact.  The per-day sums of the daily
      aggregation go through a parameter [groupby_sum], for which
      [float64_sum] gives the IEEE binary64 sums of Python; the other sums and
      quotients are written without rounding, and no property below rests on
      an identity that rounding breaks.
    - A pandas [Timestamp] is a calendar day number together with the time of
      day; [.dt.date] keeps the day number only.
    - Library calls whose answers come from outside the process (the clock, the
      environment, the token endpoint, the browser redirect) are fields of
      [World]; the query-string parser of [urllib] is a parameter of the
      callback handler. *)

From Stdlib Require Import QArith Qabs ZArith Lia Lqa Bool Ascii String Sorted.
From stdpp Require Import gmap strings list.

Open Scope Z_scope.

(** ** Python values and exceptions *)

Inductive exn :=
| RuntimeError (msg : string)
| HTTPError (status : Z)
| AttributeError
| TypeError
| ValueError
| KeyError (key : string)
| JSONDecodeError
| ZeroDivisionError.

Inductive result (A : Type) :=
| Ok (a : A)
| Raise (e : exn).
Arguments Ok {A} a.
Arguments Raise {A} e.

(** What [json.loads] gives: [JNum] is an [int], [JFloat] a finite [float]
    with its value as a rational.  The floats [inf] and [nan], which
    [json.loads] also accepts, are left out. *)
#[warnings="-register-all"]
Inductive json :=
| JNull
| JBool (b : bool)
| JNum (n : Z)
| JFloat (x : Q)
| JStr (s : string)
| JArr (l : list json)
| JObj (m : gmap string json).

(** Truth value of a Python object, as tested by [if x], [x and y], [x or y]. *)
Definition truthy (v : json) : bool :=
  match v with
  | JNull => false
  | JBool b => b
  | JNum n => negb (n =? 0)
  | JFloat x => negb (Qeq_bool x 0)
  | JStr s => negb (String.eqb s "")
  | JArr l => match l with [] => false | _ => true end
  | JObj m => negb (bool_decide (m = ∅))
  end.

Definition is_dict (v : json) : bool :=
  match v with JObj _ => true | _ => false end.

(** [d.get(k)]: only dicts have [.get]; a missing key gives [None]. *)
Definition py_get (d : json) (k : string) : result json :=
  match d with
  | JObj m => Ok (default JNull (m !! k))
  | _ => Raise AttributeError
  end.

(** [d[k] = v]: item assignment with a string key. *)
Definition py_setitem (d : json) (k : string) (v : json) : result json :=
  match d with
  | JObj m => Ok (JObj (<[k := v]> m))
  | _ => Raise TypeError
  end.

(** [d[k]]: subscript with a string key. *)
Definition py_getitem (d : json) (k : string) : result json :=
  match d with
  | JObj m => match m !! k with Some v => Ok v | None => Raise (KeyError k) end
  | _ => Raise TypeError
  end.

Definition digit_of (c : ascii) : option Z :=
  let n := Z.of_N (Ascii.N_of_ascii c) in
  if (48 <=? n) && (n <=? 57) then Some (n - 48) else None.

Fixpoint digits_value (acc : Z) (s : string) : option Z :=
  match s with
  | EmptyString => Some acc
  | String c rest =>
      match digit_of c with
      | Some d => digits_value (10 * acc + d) rest
      | None => None
      end
  end.

(** [int(s)] on a string of decimal digits with an optional sign.  The
    whitespace and underscore forms that [int] also accepts are not modelled
    and count as [ValueError]. *)
Definition int_of_string (s : string) : result Z :=
  match s with
  | EmptyString => Raise ValueError
  | String c rest =>
      if Ascii.eqb c "-"%char then
        match rest with
        | EmptyString => Raise ValueError
        | _ => match digits_value 0 rest with Some n => Ok (- n) | None => Raise ValueError end
        end
      else if Ascii.eqb c "+"%char then
        match rest with
        | EmptyString => Raise ValueError
        | _ => match digits_value 0 rest with Some n => Ok n | None => Raise ValueError end
        end
      else match digits_value 0 s with Some n => Ok n | None => Raise ValueError end
  end.

(** [int(v)]: a float is truncated towards zero. *)
Definition py_int (v : json) : result Z :=
  match v with
  | JNum n => Ok n
  | JFloat x => Ok (Z.quot (Qnum x) (Zpos (Qden x)))
  | JBool b => Ok (Z.b2z b)
  | JStr s => int_of_string s
  | _ => Raise TypeError
  end.

(** *** Python floats: IEEE binary64 *)

(** The integer nearest to [num / den] for a positive [den], ties to even. *)
Definition round_half_even (num den : Z) : Z :=
  let m := (num / den)%Z in
  let r := (num mod den)%Z in
  if (den <? 2 * r)%Z || ((2 * r =? den)%Z && Z.odd m) then (m + 1)%Z else m.

(** The float nearest to a rational: 53 significant bits, round to nearest,
    ties to even.  The exponent is not bounded, so the overflow to [inf] is
    left out; a sum of two floats that falls in the subnormal range is exact
    and is returned as it is. *)
Definition float64_round (q : Q) : Q :=
  let n := Z.abs (Qnum q) in
  let d := Zpos (Qden q) in
  if (n =? 0)%Z then 0
  else
    let scaled (e : Z) :=
      if (e <? 0)%Z then ((n * 2 ^ (- e))%Z, d) else (n, (d * 2 ^ e)%Z) in
    let e0 := (Z.log2 n - Z.log2 d - 52)%Z in
    let e := if (fst (scaled e0) <? snd (scaled e0) * 2 ^ 52)%Z then (e0 - 1)%Z else e0 in
    let m := round_half_even (fst (scaled e)) (snd (scaled e)) in
    Qred (inject_Z (Z.sgn (Qnum q) * m) * Qpower 2 e).

(** [x + y] on floats. *)
Definition float64_add (x y : Q) : Q := float64_round (x + y).

(** A float64 sum taken left to right from 0.0.  Summation routines differ
    in how they carry rounding errors over more than two floats; for one or
    two floats they all give this sum. *)
Definition float64_sum (l : list Q) : Q := fold_left float64_add l 0%Q.

(** A Python number: an [int] or a [float]. *)
Inductive number :=
| Int (n : Z)
| Float (x : Q).

(** The left operand of [issued_at + int(expires_in)]: an [int] (or [bool])
    or a [float]; anything else cannot be added to an [int]. *)
Definition py_number (v : json) : result number :=
  match v with
  | JNum n => Ok (Int n)
  | JBool b => Ok (Int (Z.b2z b))
  | JFloat x => Ok (Float x)
  | _ => Raise TypeError
  end.

(** [now < issued_at + lifetime - 60] for the ints [now] and [lifetime]: int
    arithmetic for an int [issued_at]; for a float the ints are converted and
    each operation rounds, the comparison being exact. *)
Definition before_expiry (now : Z) (issued_at : number) (lifetime : Z) : bool :=
  match issued_at with
  | Int issued => now <? issued + lifetime - 60
  | Float issued =>
      let deadline :=
        float64_add (float64_add issued (float64_round (inject_Z lifetime)))
          (- inject_Z 60)%Q in
      negb (Qle_bool deadline (inject_Z now))
  end.

(** ** config.py: the token cache *)

Module Config.

(** What [TOKENS_PATH] holds, as far as [read_tokens] can tell.  The
    application directory is taken to exist or to be creatable, so that
    [ensure_app_dirs] returns. *)
Inductive token_file :=
| Absent                (* TOKENS_PATH.exists() is False *)
| Corrupt               (* read_text or json.loads raises *)
| Holds (v : json).     (* the text is the JSON document v *)

(** [json.loads(TOKENS_PATH.read_text())] on an existing file. *)
Definition json_loads_file (f : token_file) : result json :=
  match f with
  | Holds v => Ok v
  | _ => Raise JSONDecodeError
  end.

Definition exists_ (f : token_file) : bool :=
  match f with Absent => false | _ => true end.

Definition read_tokens (f : token_file) : result json :=
  if exists_ f then
    match json_loads_file f with
    | Ok v => Ok v
    | Raise _ => Ok (JObj ∅)          (* except Exception: return {} *)
    end
  else Ok (JObj ∅).

(** [TOKENS_PATH.write_text(json.dumps(tokens, indent=2))] *)
Definition write_tokens (tokens : json) : token_file := Holds tokens.

End Config.

(** ** oauth_whoop.py: the callback listener and the token life cycle *)

Module OAuth.
Import Config.

Record response := { status : Z; body : string }.

(** The class attributes of [_CallbackHandler]. *)
Record handler := { code : option string; state_expected : option string }.

(** Truth value of an [Optional[str]]. *)
Definition opt_truthy (o : option string) : bool :=
  match o with
  | Some s => negb (String.eqb s "")
  | None => false
  end.

(** [query.get(k, [None])[0]] where [query] is [parse_qs] of the pairs [q]:
    the first value recorded for the name [k], [None] without one. *)
Fixpoint first_value (k : string) (q : list (string * string)) : option string :=
  match q with
  | [] => None
  | (name, v) :: rest => if String.eqb name k then Some v else first_value k rest
  end.

Section Listener.

(** [parse_qsl p] stands for the (name, value) pairs that
    [parse_qs(urlparse(p).query)] groups by name, in order of appearance. *)
Variable parse_qsl : string -> list (string * string).

Definition do_GET (h : handler) (path : string) : handler * response :=
  if String.prefix "/callback" path then
    let query := parse_qsl path in
    let code_ := first_value "code" query in
    let state := first_value "state" query in
    if opt_truthy (state_expected h) && negb (bool_decide (state = state_expected h)) then
      (h, {| status := 400; body := "State mismatch" |})
    else
      ({| code := code_; state_expected := state_expected h |},
       {| status := 200; body := "You can close this window." |})
  else
    (h, {| status := 404; body := "" |}).

(** [httpd.handle_request] on the server thread: the first inbound request
    is handled, the thread then ends and later requests get no handler. *)
Definition handle_request (h : handler) (incoming : list string) : handler * list response :=
  match incoming with
  | [] => (h, [])
  | path :: _ => let '(h', r) := do_GET h path in (h', [r])
  end.

(** [incoming]: the request paths that reach the port before the deadline
    (the timeout is positive).  The result is the handler's final class
    state, the responses sent, and the returned code. *)
Definition _start_server_until_code (expected_state : string) (incoming : list string)
  : handler * list response * option string :=
  let h := {| code := None; state_expected := Some expected_state |} in
  let '(h', sent) := handle_request h incoming in
  (h', sent, if opt_truthy (code h') then code h' else None).

End Listener.

(** A query parser for unescaped requests: the text between the first [?]
    and the first [#], cut at [&], each piece cut at its first [=]; pieces
    with a blank value are dropped as [parse_qs] does by default. *)
Fixpoint cut_at (c : ascii) (s : string) : string * option string :=
  match s with
  | EmptyString => (EmptyString, None)
  | String a rest =>
      if Ascii.eqb a c then (EmptyString, Some rest)
      else let '(l, r) := cut_at c rest in (String a l, r)
  end.

Fixpoint split_on (c : ascii) (s : string) : list string :=
  match s with
  | EmptyString => [EmptyString]
  | String a rest =>
      if Ascii.eqb a c then EmptyString :: split_on c rest
      else match split_on c rest with
           | [] => [String a EmptyString]
           | piece :: more => String a piece :: more
           end
  end.

Definition plain_parse_qsl (path : string) : list (string * string) :=
  let without_fragment := fst (cut_at "#" path) in
  match snd (cut_at "?" without_fragment) with
  | None => []
  | Some query =>
      omap (fun piece =>
              match cut_at "=" piece with
              | (name, Some v) => if String.eqb v "" then None else Some (name, v)
              | (_, None) => None
              end)
           (split_on "&" query)
  end.

(** *** The outside world of one call *)

Inductive grant :=
| AuthorizationCode (code_ verifier : string)
| RefreshToken (token : json).

Record http_response := { status_code : Z; json_body : result json }.

Record World := {
  client_id : option string;          (* get_env("WHOOP_CLIENT_ID") *)
  client_secret : option string;      (* get_env("WHOOP_CLIENT_SECRET") *)
  token_urlsafe : string;             (* secrets.token_urlsafe(16) *)
  verifier : string;                  (* _generate_pkce()["verifier"] *)
  incoming : list string;             (* requests reaching the listener in time *)
  token_endpoint : grant -> result http_response;   (* requests.post(token_url, ...) *)
  time_now : Z;                       (* int(time.time()) at the expiry check *)
  time_stamp : Z                      (* int(time.time()) when new tokens are stamped *)
}.

Inductive event :=
| Browser (state : string)            (* webbrowser.open(url) *)
| Listen (state : string)             (* HTTPServer on the redirect port *)
| Post (g : grant)                    (* POST to the token endpoint *)
| Store (tokens : json).              (* write_tokens *)

Record state := { file : token_file; trace : list event }.

(** State and exceptions: a raised exception keeps the state reached. *)
Definition M (A : Type) : Type := state -> result A * state.

Definition ret {A} (a : A) : M A := fun s => (Ok a, s).
Definition raise {A} (e : exn) : M A := fun s => (Raise e, s).
Definition lift {A} (r : result A) : M A := fun s => (r, s).
Definition bind {A B} (m : M A) (k : A -> M B) : M B :=
  fun s => match m s with
           | (Ok a, s') => k a s'
           | (Raise e, s') => (Raise e, s')
           end.

Notation "x <- m ;; k" := (bind m (fun x => k))
  (at level 100, m at next level, right associativity).
Notation "m ;;; k" := (bind m (fun _ => k))
  (at level 100, right associativity).

Definition emit (e : event) : M unit :=
  fun s => (Ok tt, {| file := file s; trace := trace s ++ [e] |}).

Definition read_tokens_ : M json := fun s => (read_tokens (file s), s).

Definition write_tokens_ (tokens : json) : M unit :=
  fun s => (Ok tt, {| file := write_tokens tokens; trace := trace s ++ [Store tokens] |}).

(** [resp = requests.post(...); resp.raise_for_status(); resp.json()] *)
Definition post_for_json (w : World) (g : grant) : M json :=
  emit (Post g) ;;;
  resp <- lift (token_endpoint w g) ;;
  if (400 <=? status_code resp) && (status_code resp <? 600)
  then raise (HTTPError (status_code resp))
  else lift (json_body resp).

Section Flow.

Variable parse_qsl : string -> list (string * string).

Definition authorize_and_cache_tokens (w : World) : M json :=
  if negb (opt_truthy (client_id w)) || negb (opt_truthy (client_secret w)) then
    raise (RuntimeError "WHOOP_CLIENT_ID and WHOOP_CLIENT_SECRET must be set in environment or .env")
  else
    let state := token_urlsafe w in
    emit (Browser state) ;;;
    emit (Listen state) ;;;
    match snd (_start_server_until_code parse_qsl state (incoming w)) with
    | None => raise (RuntimeError "Authorization timed out")
    | Some code_ =>
        tokens <- post_for_json w (AuthorizationCode code_ (verifier w)) ;;
        cached <- read_tokens_ ;;
        cached' <- lift (py_setitem cached "whoop" tokens) ;;
        write_tokens_ cached' ;;;
        ret tokens
    end.

(** The shared tail of both renewal paths of [get_valid_token]. *)
Definition stamp_and_cache (w : World) (new_tokens : json) : M json :=
  stamped <- lift (py_setitem new_tokens "issued_at" (JNum (time_stamp w))) ;;
  cached <- read_tokens_ ;;
  cached' <- lift (py_setitem cached "whoop" stamped) ;;
  write_tokens_ cached' ;;;
  lift (py_getitem stamped "access_token").

Definition get_valid_token (w : World) : M json :=
  if negb (opt_truthy (client_id w)) || negb (opt_truthy (client_secret w)) then
    raise (RuntimeError "WHOOP_CLIENT_ID and WHOOP_CLIENT_SECRET must be set")
  else
    cached <- read_tokens_ ;;
    entry <- lift (py_get cached "whoop") ;;
    let tokens := if truthy entry then entry else JObj ∅ in
    access_token <- lift (py_get tokens "access_token") ;;
    refresh_token <- lift (py_get tokens "refresh_token") ;;
    expires_in <- lift (py_get tokens "expires_in") ;;
    issued_at <- lift (py_get tokens "issued_at") ;;
    let now := time_now w in
    still_valid <-
      (if truthy access_token && truthy issued_at && truthy expires_in then
         lifetime <- lift (py_int expires_in) ;;
         issued <- lift (py_number issued_at) ;;
         ret (before_expiry now issued lifetime)
       else ret false) ;;
    if (still_valid : bool) then ret access_token
    else if negb (truthy refresh_token) then
      new_tokens <- authorize_and_cache_tokens w ;;
      stamp_and_cache w new_tokens
    else
      new_tokens <- post_for_json w (RefreshToken refresh_token) ;;
      stamp_and_cache w new_tokens.

End Flow.

(** *** Sample runs *)

(** A world in which the authorization succeeds: the browser redirect
    carries the expected state and the token endpoint answers 200 with
    [{"access_token": "A", "refresh_token": "R", "expires_in": 3600}]. *)
Definition granted_bundle : gmap string json :=
  <["access_token" := JStr "A"]>
    (<["refresh_token" := JStr "R"]> (<["expires_in" := JNum 3600]> ∅)).

Definition granting_world : World :=
  {| client_id := Some "id";
     client_secret := Some "secret";
     token_urlsafe := "xyz";
     verifier := "v";
     incoming := ["/callback?code=abc&state=xyz"];
     token_endpoint := fun _ => Ok {| status_code := 200; json_body := Ok (JObj granted_bundle) |};
     time_now := 1000;
     time_stamp := 1001 |}.

(** A cache written 1000 s after the epoch for a token that lives 3600 s. *)
Definition fresh_bundle : gmap string json :=
  <["access_token" := JStr "A"]>
    (<["issued_at" := JNum 1000]> (<["expires_in" := JNum 3600]> ∅)).

Definition fresh_cache : token_file :=
  Holds (JObj (<["whoop" := JObj fresh_bundle]> ∅)).

(** The same stamp with a refresh token and a lifetime of 3600.5 s, a float. *)
Definition float_lifetime_bundle : gmap string json :=
  <["access_token" := JStr "A"]>
    (<["refresh_token" := JStr "R"]>
       (<["issued_at" := JNum 1000]> (<["expires_in" := JFloat (7201 # 2)]> ∅))).

Definition float_lifetime_cache : token_file :=
  Holds (JObj (<["whoop" := JObj float_lifetime_bundle]> ∅)).

(** The same world without [WHOOP_CLIENT_SECRET] in the environment. *)
Definition unconfigured_world : World :=
  {| client_id := Some "id";
     client_secret := None;
     token_urlsafe := token_urlsafe granting_world;
     verifier := verifier granting_world;
     incoming := incoming granting_world;
     token_endpoint := token_endpoint granting_world;
     time_now := 2000;
     time_stamp := 2001 |}.

End OAuth.

(** ** analyzer.py: the join/aggregation engine *)

Module Analyzer.

Open Scope Q_scope.

(** A parsed [date] cell: [pd.to_datetime] gives a Timestamp, whose calendar
    day is [ts_day] and whose time of day is [ts_time]. *)
Record Timestamp := { ts_day : Z; ts_time : Z }.

#[global] Instance Timestamp_eq_dec : EqDecision Timestamp.
Proof. solve_decision. Defined.

(** [.dt.date] *)
Definition dt_date (t : Timestamp) : Z := ts_day t.

(** [pd.to_datetime] of a [datetime.date]: midnight of that day. *)
Definition to_datetime (d : Z) : Timestamp := {| ts_day := d; ts_time := 0 |}.

(** The ["score"] entry of a fetched recovery record: the key may be
    missing, hold [null], or hold a number. *)
Inductive score_cell :=
| NoKey
| Null
| Score (s : Q).

(** Fetched records, with the fields of the data model: a transaction has a
    date and an amount, a recovery record a date and possibly a score. *)
Record RecoveryRecord := { rec_date : Timestamp; rec_cell : score_cell }.
Record Transaction := { tx_date : Timestamp; tx_amount : Q }.
Record Workout := { wo_date : Timestamp }.

(** [r.get("score")]: [None] for a missing key and for [null]; also the cell
    of a numeric [score] column, where both are NaN. *)
Definition rec_score (r : RecoveryRecord) : option Q :=
  match rec_cell r with
  | Score s => Some s
  | _ => None
  end.

Definition rbind {A B} (r : result A) (k : A -> result B) : result B :=
  match r with
  | Ok a => k a
  | Raise e => Raise e
  end.

Notation "x <- r ;; k" := (rbind r (fun x => k))
  (at level 100, r at next level, right associativity).

Definition Qlt_bool (x y : Q) : bool := negb (Qle_bool y x).

(** Python's [sum] and pandas' [Series.sum]: left to right from 0. *)
Definition py_sum (l : list Q) : Q := fold_left Qplus l 0.

(** [x / n] with [n = len(...)]. *)
Definition py_div (x : Q) (n : nat) : result Q :=
  if (n =? 0)%nat then Raise ZeroDivisionError
  else Ok (x / inject_Z (Z.of_nat n)).

(** [Series.mean]: NaN ([None]) on an empty series. *)
Definition series_mean (l : list Q) : option Q :=
  match l with
  | [] => None
  | _ => Some (py_sum l / inject_Z (Z.of_nat (List.length l)))
  end.

(** Python's [max] and [min]: the first extremal element. *)
Definition py_max (first : Q) (rest : list Q) : Q :=
  fold_left (fun m x => if Qlt_bool m x then x else m) rest first.
Definition py_min (first : Q) (rest : list Q) : Q :=
  fold_left (fun m x => if Qlt_bool x m then x else m) rest first.


(** *** Recovery bucketing: [pd.cut] *)

Inductive band := Low | Medium | High.

#[global] Instance band_eq_dec : EqDecision band.
Proof. solve_decision. Defined.

(** [bins.searchsorted(x, side="left")] on increasing [bins]: the number of
    edges strictly below [x]. *)
Definition searchsorted_left (bins : list Q) (x : Q) : nat :=
  List.length (List.filter (fun b => Qlt_bool b x) bins).

(** [pd.cut(x, bins, labels)] with its defaults [right=True] and
    [include_lowest=False]: index 0 and index [len(bins)] are NaN. *)
Definition pd_cut (bins : list Q) (labels : list band) (x : Q) : option band :=
  let ids := searchsorted_left bins x in
  if (ids =? 0)%nat || (ids =? List.length bins)%nat then None
  else nth_error labels (ids - 1).

Definition recovery_category (score : option Q) : option band :=
  match score with
  | Some s => pd_cut [0; 33; 66; 100] [Low; Medium; High] s
  | None => None
  end.

(** *** Daily spend aggregation: [groupby(date).sum()] *)

(** One more amount for day [d] in the table of the groups: the days are
    kept in increasing order, the amounts of a day in order of appearance. *)
Fixpoint add_to_day (d : Z) (a : Q) (acc : list (Z * list Q)) : list (Z * list Q) :=
  match acc with
  | [] => [(d, [a])]
  | (d', l) :: rest =>
      if (d <? d')%Z then (d, [a]) :: acc
      else if (d =? d')%Z then (d', l ++ [a]) :: rest
      else (d', l) :: add_to_day d a rest
  end.

(** The groups of [transactions_df.groupby(transactions_df["date"].dt.date)]. *)
Definition groups_by_date (txs : list Transaction) : list (Z * list Q) :=
  fold_left (fun acc t => add_to_day (dt_date (tx_date t)) (tx_amount t) acc) txs [].

Section GroupBy.

(** [groupby_sum l] stands for the sum that pandas computes for a group
    holding the amounts [l]: an int64 or float64 computation of the library. *)
Variable groupby_sum : list Q -> Q.

(** [transactions_df.groupby(transactions_df["date"].dt.date)["amount"].sum()] *)
Definition groupby_date_sum (txs : list Transaction) : list (Z * Q) :=
  map (fun '(d, l) => (d, groupby_sum l)) (groups_by_date txs).

(** [daily_spending] after [reset_index] and [pd.to_datetime]: rows with a
    [date] and an [amount] column, one per day. *)
Definition daily_spending (txs : list Transaction) : list Transaction :=
  map (fun '(d, s) => {| tx_date := to_datetime d; tx_amount := s |}) (groupby_date_sum txs).

End GroupBy.


(** The order of the days in a table. *)
Definition below {A B : Type} (p : Z * A) (q : Z * B) : Prop := (fst p < fst q)%Z.



(** The total recorded for day [d] (0 when the day has no row). *)
Definition day_total (d : Z) (rows : list Transaction) : Q :=
  py_sum (map tx_amount (List.filter (fun t => (dt_date (tx_date t) =? d)%Z) rows)).


(** *** Outer join on [date] *)

Record merged_row := { m_date : Timestamp; m_score : option Q; m_amount : option Q }.

(** [pd.merge(left, right, on="date", how="outer")]; the rows are listed
    left-first, not in pandas' key order. *)
Definition merge_outer (left : list RecoveryRecord) (right : list Transaction) : list merged_row :=
  flat_map
    (fun r =>
       match List.filter (fun t => bool_decide (tx_date t = rec_date r)) right with
       | [] => [{| m_date := rec_date r; m_score := rec_score r; m_amount := None |}]
       | matches =>
           map (fun t => {| m_date := rec_date r; m_score := rec_score r;
                            m_amount := Some (tx_amount t) |}) matches
       end)
    left
  ++ map (fun t => {| m_date := tx_date t; m_score := None; m_amount := Some (tx_amount t) |})
       (List.filter
          (fun t => negb (existsb (fun r => bool_decide (rec_date r = tx_date t)) left))
          right).

(** *** analyze_spending_vs_recovery *)

(** A result dict: [{"error": "No data available for analysis"}] or the
    analysis proper. *)
Inductive analysis (A : Type) :=
| NoData
| Report (a : A).
Arguments NoData {A}.
Arguments Report {A} a.

Record band_stats := {
  band_total_spending : Q;
  band_avg_daily_spending : option Q;
  band_transaction_count : nat
}.

Record spending_report := {
  correlation : option Q;
  spending_by_recovery : list (band * band_stats);
  data_points : nat
}.

Definition category_stats (recovery : list RecoveryRecord) (txs : list Transaction)
    (category : band) : option (band * band_stats) :=
  let category_dates :=
    map rec_date
      (List.filter (fun r => bool_decide (recovery_category (rec_score r) = Some category))
         recovery) in
  match category_dates with
  | [] => None
  | _ =>
      let category_transactions :=
        List.filter (fun t => existsb (fun d => bool_decide (d = tx_date t)) category_dates) txs in
      Some (category,
            {| band_total_spending := py_sum (map tx_amount category_transactions);
               band_avg_daily_spending := series_mean (map tx_amount category_transactions);
               band_transaction_count := List.length category_transactions |})
  end.

(** The [score] column of [pd.DataFrame(recovery)]: there is none when no
    record has the key; it has dtype [object] when its cells are all [None];
    otherwise it is numeric, a missing key or a [null] being NaN. *)
Inductive column := NoColumn | ObjectColumn | NumericColumn.

Definition score_column (recovery : list RecoveryRecord) : column :=
  if forallb (fun r => match rec_cell r with NoKey => true | _ => false end) recovery
  then NoColumn
  else if forallb (fun r => match rec_cell r with Null => true | _ => false end) recovery
  then ObjectColumn
  else NumericColumn.

Section Correlation.

Variable groupby_sum : list Q -> Q.

(** [Series.corr]: the Pearson coefficient over the complete pairs, a
    floating-point computation of pandas that no property below looks into. *)
Variable corr : list (option Q * option Q) -> option Q.

Definition analyze_spending_vs_recovery (recovery : list RecoveryRecord)
    (txs : list Transaction) : result (analysis spending_report) :=
  match recovery, txs with
  | [], _ | _, [] => Ok NoData
  | _, _ =>
      let daily := daily_spending groupby_sum txs in
      match score_column recovery with
      | NoColumn => Raise (KeyError "score")     (* recovery_df[["date", "score"]] *)
      | ObjectColumn => Raise TypeError          (* pd.cut on a column of None *)
      | NumericColumn =>
          let merged_data := merge_outer recovery daily in
          Ok (Report
                {| correlation := corr (map (fun m => (m_score m, m_amount m)) merged_data);
                   spending_by_recovery :=
                     omap (category_stats recovery txs) [Low; Medium; High];
                   data_points := List.length merged_data |})
      end
  end.

End Correlation.

(** *** analyze_workout_impact_on_spending *)

(** [Series.unique]: the distinct values in order of first appearance. *)
Fixpoint unique (l : list Z) : list Z :=
  match l with
  | [] => []
  | x :: rest => x :: List.filter (fun y => negb (y =? x)%Z) (unique rest)
  end.

(** The loop over the distinct transaction dates: the daily totals of the
    workout days and of the other days. *)
Definition split_days (workouts : list Workout) (txs : list Transaction) : list Q * list Q :=
  let workout_dates : gset Z := list_to_set (map (fun w => dt_date (wo_date w)) workouts) in
  fold_left
    (fun '(workout_day_spending, non_workout_day_spending) date =>
       let daily_total :=
         py_sum (map tx_amount (List.filter (fun t => (dt_date (tx_date t) =? date)%Z) txs)) in
       if bool_decide (date ∈ workout_dates)
       then (workout_day_spending ++ [daily_total], non_workout_day_spending)
       else (workout_day_spending, non_workout_day_spending ++ [daily_total]))
    (unique (map (fun t => dt_date (tx_date t)) txs))
    ([], []).

Record day_stats := { count : nat; avg_spending : Q; total_spending : Q }.

Record workout_analysis := {
  workout_days : day_stats;
  non_workout_days : day_stats;
  spending_difference : option Q          (* the key is set on one path only *)
}.

(** [sum(l) / len(l) if l else 0] *)
Definition avg_or_zero (l : list Q) : result Q :=
  match l with
  | [] => Ok 0
  | _ => py_div (py_sum l) (List.length l)
  end.

Definition analyze_workout_impact_on_spending (workouts : list Workout)
    (txs : list Transaction) : result (analysis workout_analysis) :=
  match workouts, txs with
  | [], _ | _, [] => Ok NoData
  | _, _ =>
      let '(workout_day_spending, non_workout_day_spending) := split_days workouts txs in
      workout_avg <- avg_or_zero workout_day_spending ;;
      non_workout_avg <- avg_or_zero non_workout_day_spending ;;
      Ok (Report
            {| workout_days :=
                 {| count := List.length workout_day_spending;
                    avg_spending := workout_avg;
                    total_spending := py_sum workout_day_spending |};
               non_workout_days :=
                 {| count := List.length non_workout_day_spending;
                    avg_spending := non_workout_avg;
                    total_spending := py_sum non_workout_day_spending |};
               spending_difference :=
                 match workout_day_spending, non_workout_day_spending with
                 | _ :: _, _ :: _ => Some (workout_avg - non_workout_avg)
                 | _, _ => None
                 end |})
  end.

(** *** generate_health_finance_report *)

(** The truth value of [r.get("score")]: an absent or null score and the
    number 0 are both false. *)
Definition score_truthy (score : option Q) : bool :=
  match score with
  | Some s => negb (Qeq_bool s 0)
  | None => false
  end.

(** [[r.get("score", 0) for r in whoop_data["recovery"] if r.get("score")]] *)
Definition recovery_scores (recovery : list RecoveryRecord) : list Q :=
  map (fun r => default 0 (rec_score r))
    (List.filter (fun r => score_truthy (rec_score r)) recovery).

Record score_distribution := { low : nat; medium : nat; high : nat }.

Record recovery_stats := {
  average_score : Q;
  best_score : Q;
  worst_score : Q;
  distribution : score_distribution
}.

(** The [recovery_analysis] entry; [None] when the key is not set. *)
Definition recovery_analysis (recovery : list RecoveryRecord) : result (option recovery_stats) :=
  match recovery_scores recovery with
  | [] => Ok None
  | first :: rest =>
      let scores := first :: rest in
      average <- py_div (py_sum scores) (List.length scores) ;;
      Ok (Some
            {| average_score := average;
               best_score := py_max first rest;
               worst_score := py_min first rest;
               distribution :=
                 {| low := List.length (List.filter (fun s => Qle_bool s 33) scores);
                    medium := List.length
                                (List.filter (fun s => Qlt_bool 33 s && Qle_bool s 66) scores);
                    high := List.length (List.filter (fun s => Qlt_bool 66 s) scores) |} |})
  end.

Record financial_stats := {
  fin_total_spending : Q;
  average_transaction : option Q;
  largest_transaction : Q;
  fin_transaction_count : nat
}.

Definition financial_analysis (txs : list Transaction) : option financial_stats :=
  match map tx_amount txs with
  | [] => None
  | first :: rest =>
      Some {| fin_total_spending := py_sum (first :: rest);
              average_transaction := series_mean (first :: rest);
              largest_transaction := py_max first rest;
              fin_transaction_count := List.length (first :: rest) |}
  end.

Record whoop_data := {
  sleep : list json;
  recovery : list RecoveryRecord;
  workouts : list Workout;
  cycles : list json
}.

Record copilot_data := {
  transactions : list Transaction;
  accounts : list json
}.

Record summary := {
  sleep_sessions : nat;
  n_workouts : nat;
  n_recovery_scores : nat;
  n_transactions : nat;
  n_accounts : nat
}.

Record health_finance_report := {
  report_summary : summary;
  report_recovery : option recovery_stats;
  report_financial : option financial_stats;
  spending_vs_recovery : analysis spending_report;
  workout_impact : analysis workout_analysis
}.

Section Report.

Variable groupby_sum : list Q -> Q.
Variable corr : list (option Q * option Q) -> option Q.

Definition generate_health_finance_report (w : whoop_data) (c : copilot_data)
  : result health_finance_report :=
  recovery_part <- recovery_analysis (recovery w) ;;
  spending <- analyze_spending_vs_recovery groupby_sum corr (recovery w) (transactions c) ;;
  impact <- analyze_workout_impact_on_spending (workouts w) (transactions c) ;;
  Ok {| report_summary :=
          {| sleep_sessions := List.length (sleep w);
             n_workouts := List.length (workouts w);
             n_recovery_scores := List.length (recovery w);
             n_transactions := List.length (transactions c);
             n_accounts := List.length (accounts c) |};
        report_recovery := recovery_part;
        report_financial := financial_analysis (transactions c);
        spending_vs_recovery := spending;
        workout_impact := impact |}.

End Report.

End Analyzer.

(** ** oauth_whoop.py: the pieces of [get_valid_token] by name *)

Module TokenExpiry.
Import Config OAuth.

(** [tokens.get(k)] on the cached bundle. *)
Definition field (b : gmap string json) (k : string) : json := default JNull (b !! k).

(** The test of [get_valid_token] on the cached fields:
    [access_token and issued_at and expires_in and
     now < (issued_at + int(expires_in) - 60)]. *)
Definition token_still_valid (access_token issued_at expires_in : json) (now : Z)
  : result bool :=
  if truthy access_token && truthy issued_at && truthy expires_in then
    match py_int expires_in with
    | Raise e => Raise e
    | Ok lifetime =>
        match py_number issued_at with
        | Raise e => Raise e
        | Ok issued => Ok (before_expiry now issued lifetime)
        end
    end
  else Ok false.

(** Whether [raise_for_status] lets a response through. *)
Definition status_ok (status : Z) : bool := negb ((400 <=? status) && (status <? 600)).

(** The events of a run are only ever appended to. *)
Definition grows {A : Type} (m : OAuth.M A) : Prop :=
  forall s r s', m s = (r, s') -> exists evs, OAuth.trace s' = (OAuth.trace s ++ evs)%list.

(** *** Sample caches and worlds *)

(** A bundle stamped at 1000 that lived 3600 s, with a refresh token. *)
Definition stale_bundle : gmap string json :=
  <["access_token" := JStr "OLD"]>
    (<["refresh_token" := JStr "R0"]>
       (<["issued_at" := JNum 1000]> (<["expires_in" := JNum 3600]> ∅))).

(** A cache with that bundle and the entry of another provider. *)
Definition stale_cache : token_file :=
  Holds (JObj (<["whoop" := JObj stale_bundle]> (<["other" := JStr "kept"]> ∅))).

(** The granting world one day later. *)
Definition later_world : World :=
  {| client_id := client_id granting_world;
     client_secret := client_secret granting_world;
     token_urlsafe := token_urlsafe granting_world;
     verifier := verifier granting_world;
     incoming := incoming granting_world;
     token_endpoint := token_endpoint granting_world;
     time_now := 90000;
     time_stamp := 90001 |}.

(** A world whose token endpoint answers 500 and where nobody calls back. *)
Definition failing_world : World :=
  {| client_id := client_id granting_world;
     client_secret := client_secret granting_world;
     token_urlsafe := token_urlsafe granting_world;
     verifier := verifier granting_world;
     incoming := [];
     token_endpoint := fun _ => Ok {| status_code := 500; json_body := Raise JSONDecodeError |};
     time_now := 90000;
     time_stamp := 90001 |}.

End TokenExpiry.

(** ** analyzer.py: sample data *)

Module Samples.
Import Analyzer.
Open Scope Q_scope.

(** One workout on day 1 (at 09:00, in seconds), 20 spent that day and 30 the next. *)
Definition two_days_workouts : list Workout :=
  [ {| wo_date := {| ts_day := 1; ts_time := 32400 |} |} ].

Definition two_days_txs : list Transaction :=
  [ {| tx_date := to_datetime 1; tx_amount := 20 |};
    {| tx_date := to_datetime 2; tx_amount := 30 |} ].

Definition two_days_analysis : workout_analysis :=
  {| workout_days := {| count := 1; avg_spending := 20; total_spending := 20 |};
     non_workout_days := {| count := 1; avg_spending := 30; total_spending := 30 |};
     spending_difference := Some (-10 # 1) |}.

(** Scores 40, 0 and 80 on three days. *)
Definition three_scores : list RecoveryRecord :=
  [ {| rec_date := to_datetime 1; rec_cell := Score 40 |};
    {| rec_date := to_datetime 2; rec_cell := Score 0 |};
    {| rec_date := to_datetime 3; rec_cell := Score 80 |} ].

Definition three_scores_stats : recovery_stats :=
  {| average_score := 120 # 2;
     best_score := 80;
     worst_score := 40;
     distribution := {| low := 0; medium := 1; high := 1 |} |}.


(** Two recovery records fetched without a ["score"] entry. *)
Definition unscored : list RecoveryRecord :=
  [ {| rec_date := to_datetime 1; rec_cell := NoKey |};
    {| rec_date := to_datetime 2; rec_cell := NoKey |} ].

End Samples.

(** ** cli.py: the figures and insights computed by the commands *)

Module Cli.
Import Analyzer.
Open Scope Q_scope.

(** [l[-n:]] for a positive [n]: the last [n] elements, all of [l] when it
    is shorter. *)
Definition last_n {A : Type} (n : nat) (l : list A) : list A :=
  skipn (List.length l - n) l.

(** [[t.get('amount', 0) for t in txs if t.get('amount')]] *)
Definition nonzero_amounts (txs : list Transaction) : list Q :=
  map tx_amount (List.filter (fun t => negb (Qeq_bool (tx_amount t) 0)) txs).

(** The lines that [quick_insights] can append to [insights]. *)
Inductive insight :=
| RecoveryLow             (* "Recent recovery scores are low - consider rest days" *)
| RecoveryGreat           (* "Great recovery! You're ready for intense workouts" *)
| NoWorkouts              (* "No workouts recorded - time to get moving!" *)
| HighWorkoutFrequency    (* "High workout frequency - monitor recovery carefully" *)
| HighSpending            (* "High recent spending - review budget" *)
| LowSpending.            (* "Low recent spending - good budget control" *)

#[global] Instance insight_eq_dec : EqDecision insight.
Proof. solve_decision. Defined.

Definition recovery_insights (recovery : list RecoveryRecord) : result (list insight) :=
  match recovery with
  | [] => Ok []
  | _ =>
      let recent_recovery := recovery_scores (last_n 3 recovery) in
      match recent_recovery with
      | [] => Ok []
      | _ =>
          avg_recent <- py_div (py_sum recent_recovery) (List.length recent_recovery) ;;
          Ok (if Qlt_bool avg_recent 50 then [RecoveryLow]
              else if Qlt_bool 80 avg_recent then [RecoveryGreat]
              else [])
      end
  end.

Definition workout_insights (workouts : list Workout) : list insight :=
  match workouts with
  | [] => []
  | _ =>
      let workout_count := List.length workouts in
      if (workout_count =? 0)%nat then [NoWorkouts]
      else if (5 <=? workout_count)%nat then [HighWorkoutFrequency]
      else []
  end.

Definition spending_insights (txs : list Transaction) : result (list insight) :=
  match txs with
  | [] => Ok []
  | _ =>
      let recent_transactions := last_n 10 txs in
      let amounts := nonzero_amounts recent_transactions in
      match amounts with
      | [] => Ok []
      | _ =>
          avg_recent <- py_div (py_sum amounts) (List.length amounts) ;;
          Ok (if Qlt_bool 100 avg_recent then [HighSpending]
              else if Qlt_bool avg_recent 20 then [LowSpending]
              else [])
      end
  end.

(** The list [insights] of [quick_insights], from the fetched data. *)
Definition quick_insights (w : whoop_data) (c : copilot_data) : result (list insight) :=
  from_recovery <- recovery_insights (recovery w) ;;
  from_spending <- spending_insights (transactions c) ;;
  Ok (from_recovery ++ workout_insights (workouts w) ++ from_spending).

(** [whoop_status]: the value of the row "Recent Avg Recovery", [None] when
    the row is not added. *)
Definition recent_avg_recovery (recovery_data : list RecoveryRecord) : result (option Q) :=
  match recovery_data with
  | [] => Ok None
  | _ =>
      match recovery_scores (last_n 7 recovery_data) with
      | [] => Ok None
      | first :: rest =>
          avg <- py_div (py_sum (first :: rest)) (List.length (first :: rest)) ;;
          Ok (Some avg)
      end
  end.

(** [copilot_status]: the values of the rows "Total Spending" and
    "Avg Transaction", [None] when they are not added. *)
Definition spending_rows (txs : list Transaction) : result (option (Q * Q)) :=
  match txs with
  | [] => Ok None
  | _ =>
      match nonzero_amounts txs with
      | [] => Ok None
      | first :: rest =>
          avg <- py_div (py_sum (first :: rest)) (List.length (first :: rest)) ;;
          Ok (Some (py_sum (first :: rest), avg))
      end
  end.

End Cli.

(** ** whoop_api.py, copilot_money.py and the fetch of analyzer.py *)

Module Api.
Import Config OAuth.

(** One [requests.get]: the URL, the token of the [Authorization: Bearer]
    header and the query parameters in insertion order. *)
Record get_request := { url : string; bearer : json; params : list (string * json) }.

(** The network seen by a client: the world of the k-th call of
    [get_valid_token] and the answer to the k-th GET. *)
Record Net := {
  auth_world : nat -> World;
  http_get : nat -> get_request -> result http_response
}.

(** A [WhoopAPI] instance at work: the token cache with its events, the
    number of calls of [get_valid_token] so far, [self.access_token], and the
    requests sent. *)
Record client := {
  tokens : OAuth.state;
  auth_calls : nat;
  access_token : json;
  sent : list get_request
}.

Definition A (X : Type) : Type := client -> result X * client.

Definition aret {X} (x : X) : A X := fun c => (Ok x, c).
Definition araise {X} (e : exn) : A X := fun c => (Raise e, c).
Definition alift {X} (r : result X) : A X := fun c => (r, c).
Definition abind {X Y} (m : A X) (k : X -> A Y) : A Y :=
  fun c => match m c with
           | (Ok x, c') => k x c'
           | (Raise e, c') => (Raise e, c')
           end.

(** [try: body / except Exception: handler] *)
Definition try_except {X} (body handler : A X) : A X :=
  fun c => match body c with
           | (Ok x, c') => (Ok x, c')
           | (Raise _, c') => handler c'
           end.

Notation "x <~ m ;; k" := (abind m (fun x => k))
  (at level 100, m at next level, right associativity).
Notation "m ;;> k" := (abind m (fun _ => k))
  (at level 100, right associativity).

(** [d.get(k, default)] *)
Definition py_get_default (d : json) (k : string) (default_ : json) : result json :=
  match d with
  | JObj m => Ok (default default_ (m !! k))
  | _ => Raise AttributeError
  end.

(** [resp.raise_for_status(); resp.json()] *)
Definition checked_json (resp : http_response) : A json :=
  if (400 <=? status_code resp) && (status_code resp <? 600)
  then araise (HTTPError (status_code resp))
  else alift (json_body resp).

(** [if value: params[key] = value] *)
Definition optional_param (key : string) (value : option string) : list (string * json) :=
  if opt_truthy value then [(key, JStr (default "" value))] else [].

Section Clients.

Variable parse_qsl : string -> list (string * string).
Variable net : Net.

(** *** WhoopAPI *)

Variable base_url : string.

Definition call_get_valid_token : A json :=
  fun c =>
    let '(r, s') := get_valid_token parse_qsl (auth_world net (auth_calls c)) (tokens c) in
    (r, {| tokens := s'; auth_calls := S (auth_calls c);
           access_token := access_token c; sent := sent c |}).

Definition set_access_token (t : json) : A unit :=
  fun c => (Ok tt, {| tokens := tokens c; auth_calls := auth_calls c;
                      access_token := t; sent := sent c |}).

Definition read_access_token : A json := fun c => (Ok (access_token c), c).

Definition _get_headers : A json :=
  held <~ read_access_token ;;
  (if negb (truthy held)
   then t <~ call_get_valid_token ;; set_access_token t
   else aret tt) ;;>
  read_access_token.

Definition requests_get (u : string) (token : json) (ps : list (string * json))
  : A http_response :=
  fun c =>
    let request := {| url := u; bearer := token; params := ps |} in
    (http_get net (List.length (sent c)) request,
     {| tokens := tokens c; auth_calls := auth_calls c;
        access_token := access_token c; sent := sent c ++ [request] |}).

Definition profile_url : string := base_url ++ "/v1/user/profile/basic".

Definition _refresh_token_if_needed : A unit :=
  try_except
    (token <~ _get_headers ;;
     test_response <~ requests_get profile_url token [] ;;
     if status_code test_response =? 401
     then t <~ call_get_valid_token ;; set_access_token t
     else aret tt)
    (t <~ call_get_valid_token ;; set_access_token t).

Definition get_user_profile : A json :=
  _refresh_token_if_needed ;;>
  token <~ _get_headers ;;
  response <~ requests_get profile_url token [] ;;
  checked_json response.

(** The body shared by [get_sleep_data], [get_recovery_data],
    [get_workout_data] and [get_cycle_data]. *)
Definition get_collection (path key : string) (start_date end_date : option string)
  : A json :=
  _refresh_token_if_needed ;;>
  token <~ _get_headers ;;
  response <~ requests_get (base_url ++ path) token
                (optional_param "start" start_date ++ optional_param "end" end_date) ;;
  body <~ checked_json response ;;
  alift (py_get_default body key (JArr [])).

Definition get_sleep_data := get_collection "/v1/cycle/sleep" "sleep".
Definition get_recovery_data := get_collection "/v1/cycle/recovery" "recovery".
Definition get_workout_data := get_collection "/v1/cycle/workout" "workout".
Definition get_cycle_data := get_collection "/v1/cycle" "cycle".

Definition get_metrics_summary (start_date end_date : option string) : A json :=
  _refresh_token_if_needed ;;>
  token <~ _get_headers ;;
  response <~ requests_get (base_url ++ "/v1/cycle/metrics") token
                (optional_param "start" start_date ++ optional_param "end" end_date) ;;
  checked_json response.

(** *** CopilotMoneyAPI *)

Record copilot_client := { copilot_url : string; api_key : string }.

(** [CopilotMoneyAPI()] from [COPILOT_API_URL] and [COPILOT_API_KEY]. *)
Definition CopilotMoneyAPI (env_url env_key : option string) : result copilot_client :=
  if negb (opt_truthy env_key)
  then Raise (RuntimeError "COPILOT_API_KEY must be set in environment or .env")
  else Ok {| copilot_url := default "https://api.copilot.money" env_url;
             api_key := default "" env_key |}.

Variable copilot : copilot_client.

Definition copilot_get (path : string) (ps : list (string * json)) : A json :=
  response <~ requests_get (copilot_url copilot ++ path) (JStr (api_key copilot)) ps ;;
  checked_json response.

Definition get_accounts : A json :=
  body <~ copilot_get "/v1/accounts" [] ;;
  alift (py_get_default body "accounts" (JArr [])).

Definition get_transactions (start_date end_date account_id : option string) (limit : Z)
  : A json :=
  body <~ copilot_get "/v1/transactions"
            ([("limit"%string, JNum limit)]
             ++ optional_param "start_date" start_date
             ++ optional_param "end_date" end_date
             ++ optional_param "account_id" account_id) ;;
  alift (py_get_default body "transactions" (JArr [])).

Definition get_categories : A json :=
  body <~ copilot_get "/v1/categories" [] ;;
  alift (py_get_default body "categories" (JArr [])).

Definition get_insights (start_date end_date : option string) : A json :=
  copilot_get "/v1/insights"
    (optional_param "start_date" start_date ++ optional_param "end_date" end_date).

(** *** WhoopCopilotAnalyzer.get_date_range_data *)

Record fetched := {
  f_sleep : json;
  f_recovery : json;
  f_workouts : json;
  f_cycles : json;
  f_transactions : json;
  f_accounts : json;
  f_insights : json
}.

Definition get_date_range_data (start_date end_date : string) : A fetched :=
  sleep_ <~ get_sleep_data (Some start_date) (Some end_date) ;;
  recovery_ <~ get_recovery_data (Some start_date) (Some end_date) ;;
  workouts_ <~ get_workout_data (Some start_date) (Some end_date) ;;
  cycles_ <~ get_cycle_data (Some start_date) (Some end_date) ;;
  transactions_ <~ get_transactions (Some start_date) (Some end_date) None 100 ;;
  accounts_ <~ get_accounts ;;
  insights_ <~ get_insights (Some start_date) (Some end_date) ;;
  aret {| f_sleep := sleep_; f_recovery := recovery_; f_workouts := workouts_;
          f_cycles := cycles_; f_transactions := transactions_;
          f_accounts := accounts_; f_insights := insights_ |}.

End Clients.

End Api.

(** ** Sample networks and clients *)

Module ApiSamples.
Import Config OAuth TokenExpiry Api.

Definition answer (status : Z) : result http_response :=
  Ok {| status_code := status;
        json_body := Ok (JObj (<["recovery" := JArr [JNum 1]]> ∅)) |}.

(** Every GET is answered with 200. *)
Definition calm_net (w : World) : Net :=
  {| auth_world := fun _ => w; http_get := fun _ _ => answer 200 |}.

(** The first GET is answered with 401, the others with 200. *)
Definition rejecting_net (w : World) : Net :=
  {| auth_world := fun _ => w;
     http_get := fun k _ => if (k =? 0)%nat then answer 401 else answer 200 |}.

(** A client that holds the token "A" over the token file [f]. *)
Definition held_client (f : token_file) : client :=
  {| tokens := {| file := f; trace := [] |};
     auth_calls := 0;
     access_token := JStr "A";
     sent := [] |}.

Definition sample_copilot : copilot_client :=
  {| copilot_url := "https://api.copilot.money"; api_key := "K" |}.

End ApiSamples.

(** ** Sample runs of the clients and of the command line *)

Module RunSamples.
Import Api ApiSamples Analyzer.

Definition sample_fetch : result fetched * client :=
  get_date_range_data OAuth.plain_parse_qsl (calm_net OAuth.granting_world) "https://w"
    sample_copilot "2024-01-01" "2024-01-31" (held_client Config.Absent).

Definition sample_data : fetched :=
  match fst sample_fetch with
  | Ok data => data
  | Raise _ =>
      {| f_sleep := JNull; f_recovery := JNull; f_workouts := JNull; f_cycles := JNull;
         f_transactions := JNull; f_accounts := JNull; f_insights := JNull |}
  end.

(** Ten transactions of 30 on day 1. *)
Definition ten_txs : list Transaction :=
  List.repeat {| tx_date := to_datetime 1; tx_amount := 30%Q |} 10.

Definition recent_whoop : whoop_data :=
  {| sleep := []; recovery := Samples.three_scores;
     workouts := Samples.two_days_workouts; cycles := [] |}.

Definition recent_copilot : copilot_data :=
  {| transactions := ten_txs; accounts := [] |}.

End RunSamples.

(** * Properties *)

(** ** Recovery bucketing *)

Section Bucketing.
Import Analyzer.
Open Scope Q_scope.

Lemma Qlt_bool_iff (x y : Q) : Qlt_bool x y = true <-> x < y.
Proof.
  unfold Qlt_bool. rewrite negb_true_iff. split.
  - intros H. apply Qnot_le_lt. intros Hle.
    apply Qle_bool_iff in Hle. congruence.
  - intros H. destruct (Qle_bool y x) eqn:E; [|reflexivity].
    apply Qle_bool_iff in E. lra.
Qed.

Lemma Qlt_bool_false_iff (x y : Q) : Qlt_bool x y = false <-> y <= x.
Proof.
  unfold Qlt_bool. rewrite negb_false_iff. apply Qle_bool_iff.
Qed.

Lemma Qle_bool_false_iff (x y : Q) : Qle_bool x y = false <-> y < x.
Proof.
  rewrite <- Qlt_bool_iff. unfold Qlt_bool. now rewrite negb_true_iff.
Qed.

(** The bins of [pd.cut] over [[0, 33, 66, 100]] are the intervals
    (0,33], (33,66] and (66,100]; everything else is NaN. *)
Lemma recovery_category_intervals (s : Q) :
  recovery_category (Some s) =
    if Qlt_bool 0 s && Qle_bool s 33 then Some Low
    else if Qlt_bool 33 s && Qle_bool s 66 then Some Medium
    else if Qlt_bool 66 s && Qle_bool s 100 then Some High
    else None.
Proof.
  unfold recovery_category, pd_cut, searchsorted_left. simpl List.filter.
  destruct (Qlt_bool 0 s) eqn:E0, (Qlt_bool 33 s) eqn:E33,
           (Qlt_bool 66 s) eqn:E66, (Qlt_bool 100 s) eqn:E100;
    destruct (Qle_bool s 33) eqn:L33, (Qle_bool s 66) eqn:L66,
             (Qle_bool s 100) eqn:L100;
    try reflexivity; exfalso;
    repeat match goal with
      | H : Qlt_bool _ _ = true |- _ => apply Qlt_bool_iff in H
      | H : Qlt_bool _ _ = false |- _ => apply Qlt_bool_false_iff in H
      | H : Qle_bool _ _ = true |- _ => apply Qle_bool_iff in H
      | H : Qle_bool _ _ = false |- _ => apply Qle_bool_false_iff in H
      end; lra.
Qed.

(** C1, as stated, fails at the score 0: it lies in the range 0..100 and
    [pd.cut] gives it no band at all, Low included. *)
Lemma score_zero_has_no_band :
  0 <= 0 <= 100 /\
  recovery_category (Some 0) = None /\
  (forall b, recovery_category (Some 0) <> Some b).
Proof.
  split; [lra|]. split; [reflexivity|]. intros b. discriminate.
Qed.

(** C1 (amended): every score s with 0 < s <= 100 falls into exactly one of
    Low, Medium, High, a score on an edge (33, 66, 100) going to the band
    below it; the floor of the first bin is open, so a score equal to 0 gets
    no band. *)
Theorem recovery_bucketing_total_above_zero (s : Q) :
  0 <= s -> s <= 100 ->
  (s == 0 -> recovery_category (Some s) = None) /\
  (0 < s ->
     (exists! b, recovery_category (Some s) = Some b) /\
     (s <= 33 -> recovery_category (Some s) = Some Low) /\
     (33 < s -> s <= 66 -> recovery_category (Some s) = Some Medium) /\
     (66 < s -> recovery_category (Some s) = Some High)).
Proof.
  intros H0 H100. rewrite recovery_category_intervals.
  destruct (Qlt_bool 0 s) eqn:E0, (Qlt_bool 33 s) eqn:E33, (Qlt_bool 66 s) eqn:E66;
    destruct (Qle_bool s 33) eqn:L33, (Qle_bool s 66) eqn:L66,
             (Qle_bool s 100) eqn:L100; simpl;
    repeat match goal with
      | H : Qlt_bool _ _ = true |- _ => apply Qlt_bool_iff in H
      | H : Qlt_bool _ _ = false |- _ => apply Qlt_bool_false_iff in H
      | H : Qle_bool _ _ = true |- _ => apply Qle_bool_iff in H
      | H : Qle_bool _ _ = false |- _ => apply Qle_bool_false_iff in H
      end;
    try (exfalso; lra);
    (split; [intros Hz; try reflexivity; exfalso; lra|]);
    intros Hpos; try (exfalso; lra);
    (split; [eexists; split; [reflexivity | intros b' Hb'; congruence]|]);
    repeat split; intros; try reflexivity; exfalso; lra.
Qed.

Lemma recovery_bucketing_total_above_zero_witness :
  recovery_category (Some 33) = Some Low /\
  recovery_category (Some (133 # 2)) = Some High.
Proof.
  split.
  - apply (recovery_bucketing_total_above_zero 33); lra.
  - apply (recovery_bucketing_total_above_zero (133 # 2)); lra.
Defined.

End Bucketing.

(** ** Daily spend aggregation *)

Section Aggregation.
Import Analyzer.
Open Scope Q_scope.

Lemma fold_left_Qplus_from (l : list Q) (a : Q) :
  fold_left Qplus l a == a + fold_left Qplus l 0.
Proof.
  revert a. induction l as [|x l IH]; intros a; simpl.
  - ring.
  - rewrite (IH (a + x)), (IH (0 + x)). ring.
Qed.

Lemma py_sum_cons (x : Q) (l : list Q) : py_sum (x :: l) == x + py_sum l.
Proof.
  unfold py_sum. simpl. rewrite fold_left_Qplus_from. ring.
Qed.

Lemma py_sum_app (l1 l2 : list Q) : py_sum (l1 ++ l2) == py_sum l1 + py_sum l2.
Proof.
  induction l1 as [|x l1 IH]; simpl.
  - unfold py_sum at 2. simpl. ring.
  - rewrite !py_sum_cons, IH. ring.
Qed.










Lemma NoDup_list_filter {A : Type} (f : A -> bool) (l : list A) :
  NoDup l -> NoDup (List.filter f l).
Proof.
  induction 1 as [|x l Hx Hl IH]; simpl; [constructor|].
  destruct (f x); [|exact IH]. constructor; [|exact IH].
  rewrite list_elem_of_In, List.filter_In, <- list_elem_of_In. tauto.
Qed.

Lemma In_unique (x : Z) (l : list Z) : In x (unique l) <-> In x l.
Proof.
  induction l as [|y l IH]; simpl; [tauto|].
  rewrite List.filter_In, IH, negb_true_iff, Z.eqb_neq.
  destruct (Z.eq_dec y x); [tauto|]. split; [tauto|].
  intros [H|H]; [tauto|]. right. split; [exact H | congruence].
Qed.

Lemma NoDup_unique (l : list Z) : NoDup (unique l).
Proof.
  induction l as [|y l IH]; simpl; constructor.
  - rewrite list_elem_of_In, List.filter_In, negb_true_iff, Z.eqb_neq. tauto.
  - now apply NoDup_list_filter.
Qed.



(** Increasing day order is kept by every insertion. *)
Lemma add_to_day_keeps (P : Z -> Prop) (d : Z) (a : Q) (acc : list (Z * list Q)) :
  P d -> Forall (fun q => P (fst q)) acc -> Forall (fun q => P (fst q)) (add_to_day d a acc).
Proof.
  intros Hd Hacc. induction Hacc as [|[e s] rest He Hrest IH]; simpl.
  - now constructor.
  - destruct (d <? e)%Z; [|destruct (d =? e)%Z]; repeat constructor; assumption.
Qed.

Lemma add_to_day_sorted (d : Z) (a : Q) (acc : list (Z * list Q)) :
  StronglySorted below acc -> StronglySorted below (add_to_day d a acc).
Proof.
  intros Hs. induction Hs as [|[e s] rest Hrest IH Hall]; simpl.
  - repeat constructor.
  - destruct (d <? e)%Z eqn:Hlt; [|destruct (d =? e)%Z eqn:Heq].
    + apply Z.ltb_lt in Hlt. constructor.
      * now constructor.
      * constructor; [exact Hlt|].
        eapply List.Forall_impl; [|exact Hall]. unfold below. simpl. intros q Hq. lia.
    + constructor; [assumption|]. exact Hall.
    + apply Z.ltb_ge in Hlt. apply Z.eqb_neq in Heq. constructor; [exact IH|].
      apply (add_to_day_keeps (fun k => (e < k)%Z)); [lia | exact Hall].
Qed.

Lemma groups_sorted_from (txs : list Transaction) (acc : list (Z * list Q)) :
  StronglySorted below acc ->
  StronglySorted below
    (fold_left (fun acc t => add_to_day (dt_date (tx_date t)) (tx_amount t) acc) txs acc).
Proof.
  revert acc. induction txs as [|t txs IH]; intros acc Hs; simpl; [exact Hs|].
  apply IH. now apply add_to_day_sorted.
Qed.

Lemma groups_by_date_sorted (txs : list Transaction) :
  StronglySorted below (groups_by_date txs).
Proof.
  apply groups_sorted_from. constructor.
Qed.

Lemma sorted_sums (groupby_sum : list Q -> Q) (g : list (Z * list Q)) :
  StronglySorted below g ->
  StronglySorted below (map (fun '(d, l) => (d, groupby_sum l)) g).
Proof.
  induction 1 as [|[d l] g Hg IH Hall]; simpl; constructor; [exact IH|].
  apply List.Forall_map. eapply List.Forall_impl; [|exact Hall].
  intros [d' l'] Hlt. exact Hlt.
Qed.

Lemma groupby_date_sum_sorted (groupby_sum : list Q -> Q) (txs : list Transaction) :
  StronglySorted below (groupby_date_sum groupby_sum txs).
Proof.
  apply sorted_sums, groups_by_date_sorted.
Qed.




(** The days of the table of groups. *)
Lemma days_of_add_to_day (k d : Z) (a : Q) (acc : list (Z * list Q)) :
  In k (map fst (add_to_day d a acc)) <-> k = d \/ In k (map fst acc).
Proof.
  induction acc as [|[e s] rest IH]; simpl.
  - intuition congruence.
  - destruct (d <? e)%Z; [|destruct (d =? e)%Z eqn:Heq]; simpl.
    + intuition congruence.
    + apply Z.eqb_eq in Heq. subst e. intuition congruence.
    + rewrite IH. intuition congruence.
Qed.

Lemma days_of_groups_from (k : Z) (txs : list Transaction) (acc : list (Z * list Q)) :
  In k (map fst
          (fold_left (fun acc t => add_to_day (dt_date (tx_date t)) (tx_amount t) acc) txs acc))
  <-> In k (map fst acc) \/ In k (map (fun t => dt_date (tx_date t)) txs).
Proof.
  revert acc. induction txs as [|t txs IH]; intros acc; simpl; [tauto|].
  rewrite IH, days_of_add_to_day. intuition congruence.
Qed.

Lemma days_of_daily_spending (groupby_sum : list Q -> Q) (txs : list Transaction) (d : Z) :
  In d (map (fun r => dt_date (tx_date r)) (daily_spending groupby_sum txs))
  <-> In d (map (fun t => dt_date (tx_date t)) txs).
Proof.
  unfold daily_spending, groupby_date_sum. rewrite !map_map.
  rewrite (map_ext _ fst) by (now intros [d' l']).
  unfold groups_by_date. rewrite days_of_groups_from. simpl. tauto.
Qed.

Lemma sorted_rows (g : list (Z * Q)) :
  StronglySorted below g ->
  StronglySorted (fun r1 r2 => (dt_date (tx_date r1) < dt_date (tx_date r2))%Z)
    (map (fun '(d, s) => {| tx_date := to_datetime d; tx_amount := s |}) g).
Proof.
  induction 1 as [|[d s] g Hg IH Hall]; simpl; constructor; [exact IH|].
  apply List.Forall_map. eapply List.Forall_impl; [|exact Hall].
  intros [d' s'] Hlt. exact Hlt.
Qed.

Lemma daily_spending_sorted (groupby_sum : list Q -> Q) (txs : list Transaction) :
  StronglySorted (fun r1 r2 => (dt_date (tx_date r1) < dt_date (tx_date r2))%Z)
    (daily_spending groupby_sum txs).
Proof.
  apply sorted_rows, groupby_date_sum_sorted.
Qed.

Lemma sorted_days_NoDup (rows : list Transaction) :
  StronglySorted (fun r1 r2 => (dt_date (tx_date r1) < dt_date (tx_date r2))%Z) rows ->
  NoDup (map (fun r => dt_date (tx_date r)) rows).
Proof.
  induction 1 as [|r rows Hrows IH Hall]; simpl; constructor; [|exact IH].
  rewrite list_elem_of_In, in_map_iff. intros [r' [Heq Hin]].
  rewrite List.Forall_forall in Hall. specialize (Hall r' Hin). lia.
Qed.















End Aggregation.

(** ** Workout-day split and the empty-input policy *)

Section WorkoutSplit.
Import Analyzer.
Open Scope Q_scope.

Lemma avg_or_zero_ok (l : list Q) :
  exists q, avg_or_zero l = Ok q /\
            (l = [] -> q = 0) /\
            (l <> [] -> q = py_sum l / inject_Z (Z.of_nat (List.length l))).
Proof.
  destruct l as [|x l].
  - exists 0. split; [reflexivity|]. split; [intros _; reflexivity | intros H; congruence].
  - eexists. split; [reflexivity|]. split; [discriminate | intros _; reflexivity].
Qed.

(** Past its guard, the analysis is built from the two lists of [split_days]. *)
Lemma analyze_workout_impact_report (workouts : list Workout) (txs : list Transaction)
    (w n : list Q) :
  workouts <> [] -> txs <> [] -> split_days workouts txs = (w, n) ->
  exists wa na,
    avg_or_zero w = Ok wa /\ avg_or_zero n = Ok na /\
    analyze_workout_impact_on_spending workouts txs =
      Ok (Report
            {| workout_days :=
                 {| count := List.length w; avg_spending := wa; total_spending := py_sum w |};
               non_workout_days :=
                 {| count := List.length n; avg_spending := na; total_spending := py_sum n |};
               spending_difference :=
                 match w, n with
                 | _ :: _, _ :: _ => Some (wa - na)
                 | _, _ => None
                 end |}).
Proof.
  intros Hw Ht Hsplit.
  destruct (avg_or_zero_ok w) as [wa [Hwa _]].
  destruct (avg_or_zero_ok n) as [na [Hna _]].
  exists wa, na. repeat split; try assumption.
  unfold analyze_workout_impact_on_spending.
  destruct workouts as [|w0 ws]; [congruence|].
  destruct txs as [|t0 ts]; [congruence|].
  rewrite Hsplit, Hwa. simpl. rewrite Hna. reflexivity.
Qed.

Lemma analyze_workout_impact_ok (workouts : list Workout) (txs : list Transaction) :
  exists r, analyze_workout_impact_on_spending workouts txs = Ok r.
Proof.
  destruct workouts as [|w0 ws]; [eexists; reflexivity|].
  destruct txs as [|t0 ts]; [eexists; reflexivity|].
  destruct (split_days (w0 :: ws) (t0 :: ts)) as [w n] eqn:Hsplit.
  destruct (analyze_workout_impact_report (w0 :: ws) (t0 :: ts) w n)
    as [wa [na [_ [_ Hrun]]]]; [discriminate | discriminate | exact Hsplit |].
  eexists. exact Hrun.
Qed.

(** C7: the workout-day analysis never raises; the average of an empty
    partition is exactly 0 (no division takes place), the average of a
    non-empty one is its sum over its length, and [spending_difference] is
    present exactly when both partitions are non-empty, where it is the
    workout average minus the non-workout average. *)
Theorem workout_split_averages (workouts : list Workout) (txs : list Transaction) :
  exists r,
    analyze_workout_impact_on_spending workouts txs = Ok r /\
    match r with
    | NoData => workouts = [] \/ txs = []
    | Report a =>
        forall w n, split_days workouts txs = (w, n) ->
          (w = [] -> avg_spending (workout_days a) = 0) /\
          (n = [] -> avg_spending (non_workout_days a) = 0) /\
          (w <> [] ->
             avg_spending (workout_days a) = py_sum w / inject_Z (Z.of_nat (List.length w))) /\
          (n <> [] ->
             avg_spending (non_workout_days a) = py_sum n / inject_Z (Z.of_nat (List.length n))) /\
          (is_Some (spending_difference a) <-> w <> [] /\ n <> []) /\
          (forall diff, spending_difference a = Some diff ->
             diff = avg_spending (workout_days a) - avg_spending (non_workout_days a))
    end.
Proof.
  destruct workouts as [|w0 ws].
  { exists NoData. split; [reflexivity | now left]. }
  destruct txs as [|t0 ts].
  { exists NoData. split; [reflexivity | now right]. }
  destruct (split_days (w0 :: ws) (t0 :: ts)) as [w n] eqn:Hsplit.
  destruct (analyze_workout_impact_report (w0 :: ws) (t0 :: ts) w n)
    as [wa [na [Hwa [Hna Hrun]]]]; [discriminate | discriminate | exact Hsplit |].
  eexists. split; [exact Hrun|]. simpl.
  intros w' n' Heq. injection Heq as <- <-.
  destruct (avg_or_zero_ok w) as [wa' [Hwa' [Hw0 Hw1]]].
  destruct (avg_or_zero_ok n) as [na' [Hna' [Hn0 Hn1]]].
  assert (wa' = wa) by congruence. assert (na' = na) by congruence. subst wa' na'.
  split; [exact Hw0|]. split; [exact Hn0|]. split; [exact Hw1|]. split; [exact Hn1|].
  split; [split|].
  - intros [d Hd]. destruct w, n; simpl in Hd; split; congruence.
  - intros [Hw Hn]. destruct w; [congruence|]. destruct n; [congruence|]. eexists; reflexivity.
  - intros diff Hdiff. destruct w, n; simpl in Hdiff; congruence.
Qed.

(** C6, as stated, fails for the workout analysis: its inputs are the
    workouts and the transactions, so an empty recovery list does not make it
    answer "no data". *)
Lemma workout_impact_ignores_empty_recovery :
  let recovery : list RecoveryRecord := [] in
  let workouts := [ {| wo_date := {| ts_day := 1; ts_time := 0 |} |} ] in
  let txs := [ {| tx_date := {| ts_day := 1; ts_time := 0 |}; tx_amount := 20 |};
               {| tx_date := {| ts_day := 2; ts_time := 0 |}; tx_amount := 30 |} ] in
  (recovery = [] \/ txs = []) /\
  analyze_workout_impact_on_spending workouts txs <> Ok NoData /\
  analyze_workout_impact_on_spending workouts txs =
    Ok (Report
          {| workout_days := {| count := 1; avg_spending := 20; total_spending := 20 |};
             non_workout_days := {| count := 1; avg_spending := 30; total_spending := 30 |};
             spending_difference := Some (-10 # 1) |}).
Proof.
  intros recovery workouts txs.
  split; [now left|]. split; [|vm_compute; reflexivity].
  vm_compute. discriminate.
Qed.

(** C6 (amended): each analysis answers "no data", without raising, when one
    of its own two input series is empty: the recovery records or the
    transactions for the spending-vs-recovery analysis, the workouts or the
    transactions for the workout analysis. *)
Theorem empty_input_gives_no_data
    (groupby_sum : list Q -> Q) (corr : list (option Q * option Q) -> option Q)
    (recovery : list RecoveryRecord) (workouts : list Workout) (txs : list Transaction) :
  (recovery = [] \/ txs = [] ->
     analyze_spending_vs_recovery groupby_sum corr recovery txs = Ok NoData) /\
  (workouts = [] \/ txs = [] ->
     analyze_workout_impact_on_spending workouts txs = Ok NoData).
Proof.
  split; intros [-> | ->]; try reflexivity.
  - now destruct recovery.
  - now destruct workouts.
Qed.

Lemma empty_input_gives_no_data_witness :
  analyze_spending_vs_recovery float64_sum (fun _ => None)
    [ {| rec_date := {| ts_day := 1; ts_time := 0 |}; rec_cell := Score 40 |} ] [] = Ok NoData
  /\ analyze_workout_impact_on_spending []
       [ {| tx_date := {| ts_day := 1; ts_time := 0 |}; tx_amount := 20 |} ] = Ok NoData.
Proof.
  split.
  - apply (empty_input_gives_no_data float64_sum (fun _ => None) _ [] []). now right.
  - apply (empty_input_gives_no_data float64_sum (fun _ => None) [] [] _). now left.
Defined.

End WorkoutSplit.

(** ** Recovery statistics of the report *)

Section RecoveryStatistics.
Import Analyzer.
Open Scope Q_scope.

Lemma score_truthy_false (score : option Q) :
  score_truthy score = false <-> score = None \/ exists s, score = Some s /\ s == 0.
Proof.
  destruct score as [s|]; simpl.
  - rewrite negb_false_iff, Qeq_bool_iff. split.
    + intros H. right. now exists s.
    + intros [H | [s' [H Hz]]]; [discriminate|]. now injection H as ->.
  - split; [now left | reflexivity].
Qed.

Lemma recovery_scores_app (l1 l2 : list RecoveryRecord) :
  recovery_scores (l1 ++ l2) = recovery_scores l1 ++ recovery_scores l2.
Proof.
  unfold recovery_scores. now rewrite List.filter_app, map_app.
Qed.

Lemma recovery_scores_nonzero (l : list RecoveryRecord) :
  Forall (fun s => ~ s == 0) (recovery_scores l).
Proof.
  unfold recovery_scores. induction l as [|r l IH]; simpl; [constructor|].
  destruct (rec_score r) as [s|] eqn:Hs; simpl; [|exact IH].
  destruct (Qeq_bool s 0) eqn:Hz; simpl; [exact IH|].
  constructor; [|exact IH]. rewrite Hs. simpl. intros H.
  apply Qeq_bool_iff in H. congruence.
Qed.

Lemma recovery_analysis_ok (l : list RecoveryRecord) :
  exists stats, recovery_analysis l = Ok stats.
Proof.
  unfold recovery_analysis. destruct (recovery_scores l); eexists; reflexivity.
Qed.

(** With a number in some score cell the [score] column is numeric. *)
Lemma score_column_numeric (l : list RecoveryRecord) :
  (exists r s, In r l /\ rec_cell r = Score s) -> score_column l = NumericColumn.
Proof.
  intros [r [s [Hin Hs]]]. unfold score_column.
  destruct (forallb (fun r => match rec_cell r with NoKey => true | _ => false end) l) eqn:E1.
  { rewrite forallb_forall in E1. specialize (E1 r Hin). rewrite Hs in E1. discriminate. }
  destruct (forallb (fun r => match rec_cell r with Null => true | _ => false end) l) eqn:E2.
  { rewrite forallb_forall in E2. specialize (E2 r Hin). rewrite Hs in E2. discriminate. }
  reflexivity.
Qed.

Lemma spending_analysis_returns
    (groupby_sum : list Q -> Q) (corr : list (option Q * option Q) -> option Q)
    (l : list RecoveryRecord) (txs : list Transaction) :
  txs = [] \/ (exists r s, In r l /\ rec_cell r = Score s) ->
  exists sp, analyze_spending_vs_recovery groupby_sum corr l txs = Ok sp.
Proof.
  intros H. unfold analyze_spending_vs_recovery.
  destruct l as [|r0 l]; [eexists; reflexivity|].
  destruct txs as [|t0 ts]; [eexists; reflexivity|].
  destruct H as [H | H]; [discriminate|].
  rewrite (score_column_numeric _ H). eexists. reflexivity.
Qed.

(** The recovery statistics of a returned report are those of its recovery
    records. *)
Lemma report_recovery_part
    (groupby_sum : list Q -> Q) (corr : list (option Q * option Q) -> option Q)
    (w : whoop_data) (c : copilot_data) (rep : health_finance_report) :
  generate_health_finance_report groupby_sum corr w c = Ok rep ->
  recovery_analysis (recovery w) = Ok (report_recovery rep).
Proof.
  unfold generate_health_finance_report.
  destruct (recovery_analysis_ok (recovery w)) as [stats ->]. simpl rbind.
  destruct (analyze_spending_vs_recovery groupby_sum corr (recovery w) (transactions c))
    as [sp|e]; [|discriminate]. simpl rbind.
  destruct (analyze_workout_impact_on_spending (workouts w) (transactions c))
    as [im|e]; [|discriminate]. simpl rbind.
  intros H. injection H as <-. reflexivity.
Qed.

(** The report is returned when there is no transaction or some recovery
    record holds a number as its score. *)
Lemma report_returns
    (groupby_sum : list Q -> Q) (corr : list (option Q * option Q) -> option Q)
    (w : whoop_data) (c : copilot_data) :
  transactions c = [] \/ (exists r s, In r (recovery w) /\ rec_cell r = Score s) ->
  exists rep, generate_health_finance_report groupby_sum corr w c = Ok rep.
Proof.
  intros H. unfold generate_health_finance_report.
  destruct (recovery_analysis_ok (recovery w)) as [stats ->].
  destruct (spending_analysis_returns groupby_sum corr _ _ H) as [sp ->].
  destruct (analyze_workout_impact_ok (workouts w) (transactions c)) as [r ->].
  eexists. reflexivity.
Qed.

(** C10: a recovery record whose score is absent, null or equal to 0 is left
    out of the report's recovery statistics: with or without such a record
    the list of scores, and with it [average_score], [best_score],
    [worst_score] and the [score_distribution] counts, is the same; no score
    equal to 0 is ever counted.  Whenever the report is returned for records
    that include such a record, its [recovery_analysis] is the one computed
    from the other records alone; the report is returned as soon as there is
    no transaction or some record holds a number as its score. *)
Theorem report_excludes_zero_or_missing_score
    (before after : list RecoveryRecord) (r : RecoveryRecord) :
  (rec_score r = None \/ exists s, rec_score r = Some s /\ s == 0) ->
  recovery_scores (before ++ r :: after) = recovery_scores (before ++ after) /\
  recovery_analysis (before ++ r :: after) = recovery_analysis (before ++ after) /\
  Forall (fun s => ~ s == 0) (recovery_scores (before ++ r :: after)) /\
  (forall groupby_sum corr sl wk cy c rep,
     generate_health_finance_report groupby_sum corr
       {| sleep := sl; recovery := before ++ r :: after; workouts := wk; cycles := cy |} c
     = Ok rep ->
     recovery_analysis (before ++ after) = Ok (report_recovery rep)) /\
  (forall groupby_sum corr sl wk cy c,
     transactions c = [] \/
     (exists r' s, In r' (before ++ r :: after) /\ rec_cell r' = Score s) ->
     exists rep,
       generate_health_finance_report groupby_sum corr
         {| sleep := sl; recovery := before ++ r :: after; workouts := wk; cycles := cy |} c
       = Ok rep).
Proof.
  intros Hr. apply score_truthy_false in Hr.
  assert (Hscores : recovery_scores (before ++ r :: after) = recovery_scores (before ++ after)).
  { rewrite !recovery_scores_app. f_equal.
    unfold recovery_scores. simpl. now rewrite Hr. }
  assert (Hstats : recovery_analysis (before ++ r :: after)
                   = recovery_analysis (before ++ after)).
  { unfold recovery_analysis. now rewrite Hscores. }
  split; [exact Hscores|]. split; [exact Hstats|].
  split; [apply recovery_scores_nonzero|]. split.
  - intros groupby_sum corr sl wk cy c rep Hrun.
    apply report_recovery_part in Hrun. simpl in Hrun. now rewrite <- Hstats.
  - intros groupby_sum corr sl wk cy c H.
    apply (report_returns groupby_sum corr
             {| sleep := sl; recovery := before ++ r :: after; workouts := wk; cycles := cy |} c).
    exact H.
Qed.

Lemma report_excludes_zero_or_missing_score_witness :
  recovery_analysis
    [ {| rec_date := {| ts_day := 1; ts_time := 0 |}; rec_cell := Score 40 |};
      {| rec_date := {| ts_day := 2; ts_time := 0 |}; rec_cell := Score 0 |};
      {| rec_date := {| ts_day := 3; ts_time := 0 |}; rec_cell := Score 80 |} ]
  = recovery_analysis
      [ {| rec_date := {| ts_day := 1; ts_time := 0 |}; rec_cell := Score 40 |};
        {| rec_date := {| ts_day := 3; ts_time := 0 |}; rec_cell := Score 80 |} ].
Proof.
  apply (report_excludes_zero_or_missing_score
           [ {| rec_date := {| ts_day := 1; ts_time := 0 |}; rec_cell := Score 40 |} ]
           [ {| rec_date := {| ts_day := 3; ts_time := 0 |}; rec_cell := Score 80 |} ]
           {| rec_date := {| ts_day := 2; ts_time := 0 |}; rec_cell := Score 0 |}).
  right. exists 0. split; reflexivity.
Defined.

End RecoveryStatistics.

(** ** The token cache *)

Section TokenCache.
Import Config.

(** Past [ensure_app_dirs], [read_tokens] never raises; it gives the empty
    map for an absent or unparsable file and otherwise whatever JSON value the
    file holds, which is a dictionary when (and only when) that value is a
    JSON object. *)
Lemma read_tokens_total (f : token_file) :
  exists v, read_tokens f = Ok v /\
    (f = Absent \/ f = Corrupt -> v = JObj ∅) /\
    (forall j, f = Holds j -> v = j) /\
    (is_dict v = true <-> f = Absent \/ f = Corrupt \/ exists m, f = Holds (JObj m)).
Proof.
  destruct f as [| |j]; simpl; eexists; (split; [reflexivity|]).
  - repeat split; try congruence; auto.
  - repeat split; try congruence; auto.
  - split; [intros [H|H]; discriminate|]. split; [congruence|].
    split.
    + destruct j; try discriminate. intros _. right. right. eauto.
    + intros [H|[H|[m H]]]; try discriminate. now injection H as ->.
Qed.

(** C9 at the failing input: a token file holding the valid JSON document
    [[]] makes [read_tokens] return a list, not a dictionary; the same holds
    for [null]. *)
Theorem read_tokens_passes_non_dict_json :
  read_tokens (Holds (JArr [])) = Ok (JArr []) /\
  is_dict (JArr []) = false /\
  read_tokens (Holds JNull) = Ok JNull /\
  is_dict JNull = false.
Proof.
  repeat split.
Qed.

End TokenCache.

(** ** The token life cycle *)

Section TokenLifeCycle.
Import Config OAuth.

Variable parse_qsl : string -> list (string * string).

Lemma truthy_nonempty_dict (b : gmap string json) (k : string) (v : json) :
  b !! k = Some v -> truthy (JObj b) = true.
Proof.
  intros H. simpl. apply negb_true_iff. apply bool_decide_eq_false_2.
  intros ->. rewrite lookup_empty in H. discriminate.
Qed.

Lemma opt_truthy_some (o : option string) :
  opt_truthy o = true <-> exists s, o = Some s /\ s <> ""%string.
Proof.
  destruct o as [s|]; simpl.
  - rewrite negb_true_iff, String.eqb_neq. split; [eauto|].
    intros [s' [H Hs]]. now injection H as ->.
  - split; [discriminate | intros [s [H _]]; discriminate].
Qed.

(** Whenever the interactive authorization succeeds, the cache file holds
    the former map with the returned bundle under ["whoop"], exactly as the
    token endpoint sent it. *)
Lemma authorize_persists_bundle_verbatim (w : World) (s s' : state) (tokens : json) :
  authorize_and_cache_tokens parse_qsl w s = (Ok tokens, s') ->
  exists m code_ resp,
    read_tokens (file s) = Ok (JObj m) /\
    token_endpoint w (AuthorizationCode code_ (verifier w)) = Ok resp /\
    json_body resp = Ok tokens /\
    file s' = Holds (JObj (<["whoop" := tokens]> m)).
Proof.
  unfold authorize_and_cache_tokens.
  destruct (negb (opt_truthy (client_id w)) || negb (opt_truthy (client_secret w)));
    [discriminate|].
  unfold bind at 1 2. simpl.
  destruct (_start_server_until_code parse_qsl (token_urlsafe w) (incoming w))
    as [[h sent] [c|]]; simpl; [|discriminate].
  unfold bind at 1, post_for_json, bind at 1 2, emit, lift. simpl.
  destruct (token_endpoint w (AuthorizationCode c (verifier w))) as [resp|e] eqn:Hpost;
    [|discriminate].
  destruct ((400 <=? status_code resp) && (status_code resp <? 600)); [discriminate|].
  destruct (json_body resp) as [t|e] eqn:Hbody; [|discriminate].
  unfold bind, read_tokens_, write_tokens_, lift, ret. simpl.
  destruct (read_tokens (file s)) as [cached|e] eqn:Hread; [|discriminate].
  destruct cached; simpl; try discriminate.
  intros H. injection H as <- <-. simpl.
  exists m, c, resp. repeat split; assumption.
Qed.

(** C2 at the failing input: with an empty cache, a redirect carrying the
    expected state and a token endpoint answering
    [{"access_token": "A", "refresh_token": "R", "expires_in": 3600}],
    [authorize_and_cache_tokens] succeeds and stores the bundle under
    ["whoop"], and the stored bundle has no [issued_at]; the same world run
    through [get_valid_token] does store one. *)
Theorem authorize_stores_bundle_without_issued_at :
  let start := {| file := Absent; trace := [] |} in
  (exists tokens s' m,
     authorize_and_cache_tokens plain_parse_qsl granting_world start = (Ok tokens, s') /\
     file s' = Holds (JObj m) /\
     m !! "whoop"%string = Some tokens /\
     tokens = JObj granted_bundle /\
     granted_bundle !! "issued_at"%string = None) /\
  (exists s' m b,
     get_valid_token plain_parse_qsl granting_world start = (Ok (JStr "A"), s') /\
     file s' = Holds (JObj m) /\
     m !! "whoop"%string = Some (JObj b) /\
     b !! "issued_at"%string = Some (JNum 1001)).
Proof.
  intros start. split.
  - eexists _, _, _. split; [vm_compute; reflexivity|].
    split; [reflexivity|]. split; [vm_compute; reflexivity|].
    split; [reflexivity | vm_compute; reflexivity].
  - eexists _, _, _. split; [vm_compute; reflexivity|].
    split; [reflexivity|]. split; vm_compute; reflexivity.
Qed.

(** C3, as stated, fails when the client credentials are not configured:
    the cache holds a bundle with [access_token], [issued_at] and
    [expires_in], and now = 2000 < 1000 + 3600 - 60, yet [get_valid_token]
    raises instead of returning the cached token. *)
Lemma fresh_token_not_returned_without_credentials :
  let start := {| file := fresh_cache; trace := [] |} in
  fresh_bundle !! "access_token"%string = Some (JStr "A") /\
  fresh_bundle !! "issued_at"%string = Some (JNum 1000) /\
  fresh_bundle !! "expires_in"%string = Some (JNum 3600) /\
  time_now unconfigured_world < 1000 + 3600 - 60 /\
  get_valid_token plain_parse_qsl unconfigured_world start
  = (Raise (RuntimeError "WHOOP_CLIENT_ID and WHOOP_CLIENT_SECRET must be set"), start) /\
  fst (get_valid_token plain_parse_qsl unconfigured_world start) <> Ok (JStr "A").
Proof.
  intros start. repeat split; try (vm_compute; reflexivity).
  vm_compute. discriminate.
Qed.

(** C3 (amended): when the client id and secret are configured and the
    cached bundle holds a true (non-empty) [access_token], a non-zero integer
    [issued_at] and a true [expires_in] that [int] converts (an integer, a
    float, which [int] truncates, or a string of digits) with
    now < issued_at + int(expires_in) - 60, [get_valid_token] returns the
    cached access token and leaves the state as it was: nothing is posted, no
    authorization is started, nothing is written. *)
Theorem get_valid_token_reuses_fresh_token
    (w : World) (s : state) (m b : gmap string json) (a expires : json) (i e : Z) :
  opt_truthy (client_id w) = true ->
  opt_truthy (client_secret w) = true ->
  read_tokens (file s) = Ok (JObj m) ->
  m !! "whoop"%string = Some (JObj b) ->
  b !! "access_token"%string = Some a -> truthy a = true ->
  b !! "issued_at"%string = Some (JNum i) -> i <> 0 ->
  b !! "expires_in"%string = Some expires -> truthy expires = true ->
  py_int expires = Ok e ->
  time_now w < i + e - 60 ->
  get_valid_token parse_qsl w s = (Ok a, s) /\
  trace (snd (get_valid_token parse_qsl w s)) = trace s.
Proof.
  intros Hid Hsecret Hread Hwhoop Ha Hta Hi Hi0 He Hte Hint Hnow.
  assert (Hrun : get_valid_token parse_qsl w s = (Ok a, s)).
  { unfold get_valid_token. rewrite Hid, Hsecret. simpl.
    unfold bind at 1, read_tokens_. rewrite Hread.
    unfold bind at 1, lift. simpl. rewrite Hwhoop. simpl.
    pose proof (truthy_nonempty_dict b _ _ Ha) as Hb. simpl in Hb. rewrite Hb.
    unfold bind, lift, ret. simpl. rewrite Ha, Hi, He. simpl.
    rewrite Hta, Hte, Hint. simpl.
    assert (Hne : negb (i =? 0) = true).
    { apply negb_true_iff. now apply Z.eqb_neq. }
    rewrite Hne. simpl.
    assert (Hlt : (time_now w <? i + e - 60) = true) by now apply Z.ltb_lt.
    rewrite Hlt. reflexivity. }
  split; [exact Hrun | now rewrite Hrun].
Qed.

End TokenLifeCycle.

Lemma get_valid_token_reuses_fresh_token_witness :
  OAuth.get_valid_token OAuth.plain_parse_qsl OAuth.granting_world
    {| OAuth.file := OAuth.float_lifetime_cache; OAuth.trace := [] |}
  = (Ok (JStr "A"), {| OAuth.file := OAuth.float_lifetime_cache; OAuth.trace := [] |}).
Proof.
  refine (proj1 (get_valid_token_reuses_fresh_token OAuth.plain_parse_qsl OAuth.granting_world
                   {| OAuth.file := OAuth.float_lifetime_cache; OAuth.trace := [] |}
                   (<["whoop"%string := JObj OAuth.float_lifetime_bundle]> ∅)
                   OAuth.float_lifetime_bundle
                   (JStr "A") (JFloat (7201 # 2)) 1000 3600 _ _ _ _ _ _ _ _ _ _ _ _));
    try reflexivity; try lia; vm_compute; reflexivity.
Defined.

(** ** The callback listener *)

Section CallbackListener.
Import OAuth.

Variable parse_qsl : string -> list (string * string).

Lemma do_GET_not_callback (h : handler) (path : string) :
  String.prefix "/callback" path = false ->
  do_GET parse_qsl h path = (h, {| status := 404; body := "" |}).
Proof.
  intros H. unfold do_GET. now rewrite H.
Qed.

Lemma do_GET_state_mismatch (h : handler) (expected path : string) :
  expected <> ""%string ->
  state_expected h = Some expected ->
  first_value "state" (parse_qsl path) <> Some expected ->
  String.prefix "/callback" path = true ->
  do_GET parse_qsl h path = (h, {| status := 400; body := "State mismatch" |}).
Proof.
  intros Hne Hexp Hstate Hpre. unfold do_GET. rewrite Hpre, Hexp. simpl.
  apply String.eqb_neq in Hne. rewrite Hne. simpl.
  rewrite bool_decide_eq_false_2 by exact Hstate. reflexivity.
Qed.

Lemma do_GET_state_match (h : handler) (expected path : string) :
  state_expected h = Some expected ->
  first_value "state" (parse_qsl path) = Some expected ->
  String.prefix "/callback" path = true ->
  do_GET parse_qsl h path =
    ({| code := first_value "code" (parse_qsl path); state_expected := Some expected |},
     {| status := 200; body := "You can close this window." |}).
Proof.
  intros Hexp Hstate Hpre. unfold do_GET. rewrite Hpre, Hexp, Hstate.
  rewrite bool_decide_eq_true_2 by reflexivity.
  now rewrite andb_false_r.
Qed.

(** Only the first inbound request is ever handled. *)
Lemma listener_handles_first_only (expected first : string) (rest : list string) :
  _start_server_until_code parse_qsl expected (first :: rest)
  = _start_server_until_code parse_qsl expected [first].
Proof. reflexivity. Qed.

(** C5: a request whose [state] parameter is missing or differs from the
    generated state (a non-empty string) is rejected and captures nothing:
    the handler's class attributes are unchanged, the answer is 400 on a
    callback path (404 elsewhere), and a listener that receives it returns no
    code. *)
Theorem mismatched_state_is_rejected
    (expected path : string) (h : handler) (rest : list string) :
  expected <> ""%string ->
  state_expected h = Some expected ->
  first_value "state" (parse_qsl path) <> Some expected ->
  fst (do_GET parse_qsl h path) = h /\
  (String.prefix "/callback" path = true ->
     snd (do_GET parse_qsl h path) = {| status := 400; body := "State mismatch" |}) /\
  (String.prefix "/callback" path = false -> status (snd (do_GET parse_qsl h path)) = 404) /\
  fst (fst (_start_server_until_code parse_qsl expected (path :: rest)))
  = {| code := None; state_expected := Some expected |} /\
  snd (_start_server_until_code parse_qsl expected (path :: rest)) = None.
Proof.
  intros Hne Hexp Hstate.
  assert (Hsame : forall h0, state_expected h0 = Some expected ->
                             fst (do_GET parse_qsl h0 path) = h0).
  { intros h0 H0. destruct (String.prefix "/callback" path) eqn:Hpre.
    - now rewrite (do_GET_state_mismatch h0 expected path).
    - now rewrite do_GET_not_callback. }
  split; [now apply Hsame|].
  split; [intros Hpre; now rewrite (do_GET_state_mismatch h expected path)|].
  split; [intros Hpre; now rewrite do_GET_not_callback|].
  unfold _start_server_until_code, handle_request.
  specialize (Hsame {| code := None; state_expected := Some expected |} eq_refl).
  destruct (do_GET parse_qsl {| code := None; state_expected := Some expected |} path)
    as [h' r]. simpl in Hsame. subst h'. split; reflexivity.
Qed.

(** C4 (amended): a request whose path does not begin with [/callback] is
    answered with 404 and leaves the captured code unchanged.  The listener
    handles exactly one inbound request, whatever its path, and none after
    it: when that request is [GET /callback?...] with the expected state and a
    non-empty code, the code is captured and returned; when it is not a
    callback request, it gets 404 and no code is ever returned. *)
Theorem listener_serves_one_request (expected : string) :
  (forall h path,
     String.prefix "/callback" path = false ->
     do_GET parse_qsl h path = (h, {| status := 404; body := "" |})) /\
  (forall incoming,
     _start_server_until_code parse_qsl expected incoming
     = _start_server_until_code parse_qsl expected (take 1 incoming) /\
     List.length (snd (fst (_start_server_until_code parse_qsl expected incoming)))
     = List.length (take 1 incoming)) /\
  (forall query c rest,
     first_value "state" (parse_qsl ("/callback?" ++ query)) = Some expected ->
     first_value "code" (parse_qsl ("/callback?" ++ query)) = Some c ->
     c <> ""%string ->
     _start_server_until_code parse_qsl expected (("/callback?" ++ query)%string :: rest)
     = ({| code := Some c; state_expected := Some expected |},
        [{| status := 200; body := "You can close this window." |}],
        Some c)) /\
  (forall path rest,
     String.prefix "/callback" path = false ->
     _start_server_until_code parse_qsl expected (path :: rest)
     = ({| code := None; state_expected := Some expected |},
        [{| status := 404; body := "" |}],
        None)).
Proof.
  split; [exact do_GET_not_callback|].
  split.
  { intros [|first rest]; [split; reflexivity|]. split; [reflexivity|].
    simpl take. unfold _start_server_until_code, handle_request.
    destruct (do_GET parse_qsl _ first). reflexivity. }
  split.
  - intros query c rest Hstate Hcode Hc.
    unfold _start_server_until_code, handle_request.
    rewrite (do_GET_state_match _ expected) by (try reflexivity; exact Hstate).
    rewrite Hcode. simpl. apply String.eqb_neq in Hc. now rewrite Hc.
  - intros path rest Hpre.
    unfold _start_server_until_code, handle_request.
    now rewrite do_GET_not_callback.
Qed.

End CallbackListener.

Lemma mismatched_state_is_rejected_witness :
  snd (OAuth.do_GET OAuth.plain_parse_qsl
         {| OAuth.code := None; OAuth.state_expected := Some "xyz"%string |}
         "/callback?code=abc&state=evil")
  = {| OAuth.status := 400; OAuth.body := "State mismatch" |}.
Proof.
  refine (proj1 (proj2 (mismatched_state_is_rejected OAuth.plain_parse_qsl
                          "xyz" "/callback?code=abc&state=evil"
                          {| OAuth.code := None; OAuth.state_expected := Some "xyz"%string |}
                          [] _ _ _)) _);
    try reflexivity; vm_compute; discriminate.
Defined.

Lemma listener_serves_one_request_witness :
  OAuth._start_server_until_code OAuth.plain_parse_qsl "xyz"
    ["/callback?code=abc&state=xyz"%string; "/favicon.ico"%string]
  = ({| OAuth.code := Some "abc"%string; OAuth.state_expected := Some "xyz"%string |},
     [{| OAuth.status := 200; OAuth.body := "You can close this window." |}],
     Some "abc"%string).
Proof.
  refine (proj1 (proj2 (proj2 (listener_serves_one_request OAuth.plain_parse_qsl "xyz")))
            "code=abc&state=xyz"%string "abc"%string ["/favicon.ico"%string] _ _ _);
    try (vm_compute; reflexivity); discriminate.
Defined.

(** C4, as stated, fails when another request reaches the port first: the
    probe is answered with 404, the listener has then served its one request,
    and the callback that follows is never accepted. *)
Lemma callback_after_probe_is_not_accepted :
  OAuth._start_server_until_code OAuth.plain_parse_qsl "xyz"
    ["/favicon.ico"%string; "/callback?code=abc&state=xyz"%string]
  = ({| OAuth.code := None; OAuth.state_expected := Some "xyz"%string |},
     [{| OAuth.status := 404; OAuth.body := "" |}],
     None)
  /\ OAuth._start_server_until_code OAuth.plain_parse_qsl "xyz"
       ["/callback?code=abc&state=xyz"%string]
     = ({| OAuth.code := Some "abc"%string; OAuth.state_expected := Some "xyz"%string |},
        [{| OAuth.status := 200; OAuth.body := "You can close this window." |}],
        Some "abc"%string).
Proof.
  split; vm_compute; reflexivity.
Qed.

(** The prefix test also lets a longer path through. *)
Lemma longer_callback_path_is_honoured :
  OAuth.do_GET OAuth.plain_parse_qsl
    {| OAuth.code := Some "good"%string; OAuth.state_expected := Some "xyz"%string |}
    "/callbackX?code=evil&state=xyz"
  = ({| OAuth.code := Some "evil"%string; OAuth.state_expected := Some "xyz"%string |},
     {| OAuth.status := 200; OAuth.body := "You can close this window." |}).
Proof. vm_compute. reflexivity. Qed.

(** ** The worked examples of the specification *)

Section WorkedExamples.
Import Analyzer.
Open Scope Q_scope.

Variable corr : list (option Q * option Q) -> option Q.

(** Scores 40 and 80 with 50 and 10 spent on the same two days: two complete
    pairs go to the correlation, 40 is a Medium score and 80 a High one. *)
Example spending_vs_recovery_two_days :
  analyze_spending_vs_recovery float64_sum corr
    [ {| rec_date := to_datetime 1; rec_cell := Score 40 |};
      {| rec_date := to_datetime 2; rec_cell := Score 80 |} ]
    [ {| tx_date := to_datetime 1; tx_amount := 50 |};
      {| tx_date := to_datetime 2; tx_amount := 10 |} ]
  = Ok (Report
          {| correlation := corr [(Some 40, Some 50); (Some 80, Some 10)];
             spending_by_recovery :=
               [ (Medium, {| band_total_spending := 50;
                             band_avg_daily_spending := Some 50;
                             band_transaction_count := 1 |});
                 (High, {| band_total_spending := 10;
                           band_avg_daily_spending := Some 10;
                           band_transaction_count := 1 |}) ];
             data_points := 2 |}).
Proof. vm_compute. reflexivity. Qed.

(** A record scored 0 takes part in the join but in no band. *)
Example score_zero_day_is_in_no_band :
  analyze_spending_vs_recovery float64_sum corr
    [ {| rec_date := to_datetime 1; rec_cell := Score 0 |} ]
    [ {| tx_date := to_datetime 1; tx_amount := 50 |} ]
  = Ok (Report
          {| correlation := corr [(Some 0, Some 50)];
             spending_by_recovery := [];
             data_points := 1 |}).
Proof. vm_compute. reflexivity. Qed.

(** A transaction list that is empty gives "no data" whatever the recovery
    records are. *)
Example no_transactions_no_data :
  analyze_spending_vs_recovery float64_sum corr
    [ {| rec_date := to_datetime 1; rec_cell := Score 40 |} ] []
  = Ok NoData.
Proof. vm_compute. reflexivity. Qed.

End WorkedExamples.

(** A cached bundle stamped at the epoch ([issued_at] = 0) is treated like one
    without a stamp: the token is renewed although
    now < issued_at + expires_in - 60. *)
Example zero_issued_at_is_renewed :
  let bundle : gmap string json :=
    <["access_token"%string := JStr "OLD"]>
      (<["refresh_token"%string := JStr "R"]>
         (<["issued_at"%string := JNum 0]> (<["expires_in"%string := JNum 10000000000]> ∅))) in
  let start := {| OAuth.file := Config.Holds (JObj (<["whoop"%string := JObj bundle]> ∅));
                  OAuth.trace := [] |} in
  OAuth.time_now OAuth.granting_world < 0 + 10000000000 - 60 /\
  fst (OAuth.get_valid_token OAuth.plain_parse_qsl OAuth.granting_world start) = Ok (JStr "A") /\
  head (OAuth.trace (snd (OAuth.get_valid_token OAuth.plain_parse_qsl OAuth.granting_world start)))
  = Some (OAuth.Post (OAuth.RefreshToken (JStr "R"))).
Proof.
  intros bundle start. repeat split; vm_compute; reflexivity.
Qed.

(** A float lifetime is truncated by [int]: with [expires_in] = 3600.5 and
    [issued_at] = 1000 the cached token is renewed at now = 4540, although
    4540 < 1000 + 3600.5 - 60. *)
Example float_lifetime_is_truncated :
  let at_4540 :=
    {| OAuth.client_id := Some "id"%string;
       OAuth.client_secret := Some "secret"%string;
       OAuth.token_urlsafe := "xyz";
       OAuth.verifier := "v";
       OAuth.incoming := [];
       OAuth.token_endpoint := OAuth.token_endpoint OAuth.granting_world;
       OAuth.time_now := 4540;
       OAuth.time_stamp := 4540 |} in
  let start := {| OAuth.file := OAuth.float_lifetime_cache; OAuth.trace := [] |} in
  (inject_Z 4540 < inject_Z 1000 + (7201 # 2) - inject_Z 60)%Q /\
  py_int (JFloat (7201 # 2)) = Ok 3600 /\
  head (OAuth.trace (snd (OAuth.get_valid_token OAuth.plain_parse_qsl at_4540 start)))
  = Some (OAuth.Post (OAuth.RefreshToken (JStr "R"))).
Proof.
  intros at_4540 start. split; [reflexivity|]. split; vm_compute; reflexivity.
Qed.

(** ** Renewal of the cached token *)

Section TokenRenewal.
Import Config OAuth TokenExpiry.

Variable parse_qsl : string -> list (string * string).

(** [get_valid_token] past its guard and its reads: the expiry test decides
    between the cached token and the two renewal paths. *)
Lemma get_valid_token_steps (w : World) (s : state) (m b : gmap string json) :
  opt_truthy (client_id w) = true ->
  opt_truthy (client_secret w) = true ->
  read_tokens (file s) = Ok (JObj m) ->
  (if truthy (default JNull (m !! "whoop"%string))
   then default JNull (m !! "whoop"%string) else JObj ∅) = JObj b ->
  get_valid_token parse_qsl w s =
    match token_still_valid (field b "access_token") (field b "issued_at")
            (field b "expires_in") (time_now w) with
    | Raise e => (Raise e, s)
    | Ok true => (Ok (field b "access_token"), s)
    | Ok false =>
        if negb (truthy (field b "refresh_token")) then
          bind (authorize_and_cache_tokens parse_qsl w) (stamp_and_cache w) s
        else
          bind (post_for_json w (RefreshToken (field b "refresh_token"))) (stamp_and_cache w) s
    end.
Proof.
  intros Hid Hsecret Hread Hb.
  unfold get_valid_token. rewrite Hid, Hsecret. simpl.
  unfold bind at 1, read_tokens_. rewrite Hread.
  unfold bind at 1, lift. simpl py_get. cbv iota beta. rewrite Hb.
  unfold bind at 1 2 3 4. simpl py_get. cbv iota beta.
  fold (field b "access_token") (field b "refresh_token")
       (field b "expires_in") (field b "issued_at").
  unfold token_still_valid.
  destruct (truthy (field b "access_token") && truthy (field b "issued_at")
            && truthy (field b "expires_in")).
  - unfold bind at 1 2 3, lift, ret.
    destruct (py_int (field b "expires_in")); [|reflexivity].
    destruct (py_number (field b "issued_at")); [|reflexivity].
    destruct (before_expiry (time_now w) a0 a); [reflexivity|].
    destruct (negb (truthy (field b "refresh_token"))); reflexivity.
  - unfold bind at 1, ret.
    destruct (negb (truthy (field b "refresh_token"))); reflexivity.
Qed.


Lemma post_for_json_ok (w : World) (g : grant) (s : state) (resp : http_response)
    (body : json) :
  token_endpoint w g = Ok resp -> status_ok (status_code resp) = true ->
  json_body resp = Ok body ->
  post_for_json w g s = (Ok body, {| file := file s; trace := trace s ++ [Post g] |}).
Proof.
  intros Hpost Hstatus Hbody. unfold post_for_json, bind, emit, lift, raise. simpl.
  rewrite Hpost. unfold status_ok in Hstatus. apply negb_true_iff in Hstatus.
  rewrite Hstatus, Hbody. reflexivity.
Qed.





(** The listener hands out a code only for a first request that is a
    callback carrying the expected state and a non-empty code. *)
Lemma listener_code_origin (expected : string) (inc : list string) (c : string) :
  expected <> ""%string ->
  snd (_start_server_until_code parse_qsl expected inc) = Some c ->
  exists first rest,
    inc = first :: rest /\
    String.prefix "/callback" first = true /\
    first_value "state" (parse_qsl first) = Some expected /\
    first_value "code" (parse_qsl first) = Some c /\
    c <> ""%string.
Proof.
  intros Hne Hcode. destruct inc as [|first rest]; [discriminate|].
  exists first, rest. split; [reflexivity|].
  unfold _start_server_until_code, handle_request, do_GET in Hcode.
  destruct (String.prefix "/callback" first) eqn:Hpre; [|discriminate].
  simpl in Hcode. apply String.eqb_neq in Hne. rewrite Hne in Hcode. simpl in Hcode.
  destruct (bool_decide (first_value "state" (parse_qsl first) = Some expected)) eqn:Hst;
    simpl in Hcode; [|discriminate].
  apply bool_decide_eq_true in Hst.
  destruct (first_value "code" (parse_qsl first)) as [c'|] eqn:Hc; simpl in Hcode;
    [|discriminate].
  destruct (String.eqb c' "") eqn:Hempty; simpl in Hcode; [discriminate|].
  injection Hcode as ->. apply String.eqb_neq in Hempty. repeat split; assumption.
Qed.


(** X4: a token file holding valid JSON that is not an object, or a
    ["whoop"] entry that is a true value but not an object, makes
    [get_valid_token] raise [AttributeError] before anything is sent or
    written. *)
Theorem malformed_cache_raises_attribute_error (w : World) (s : state) :
  opt_truthy (client_id w) = true ->
  opt_truthy (client_secret w) = true ->
  (forall v, read_tokens (file s) = Ok v -> is_dict v = false ->
     get_valid_token parse_qsl w s = (Raise AttributeError, s)) /\
  (forall m entry, read_tokens (file s) = Ok (JObj m) ->
     m !! "whoop"%string = Some entry -> truthy entry = true -> is_dict entry = false ->
     get_valid_token parse_qsl w s = (Raise AttributeError, s)).
Proof.
  intros Hid Hsecret. split.
  - intros v Hread Hv. unfold get_valid_token. rewrite Hid, Hsecret. simpl.
    unfold bind at 1, read_tokens_. rewrite Hread. unfold bind at 1, lift.
    destruct v; try discriminate; reflexivity.
  - intros m entry Hread Hentry Htrue Hdict.
    unfold get_valid_token. rewrite Hid, Hsecret. simpl.
    unfold bind at 1, read_tokens_. rewrite Hread. unfold bind at 1, lift.
    simpl py_get. cbv iota beta. rewrite Hentry. simpl default. rewrite Htrue.
    unfold bind at 1. destruct entry; try discriminate; reflexivity.
Qed.

(** Each step of the flow only appends to the trace. *)
Lemma grows_bind {A B : Type} (m : M A) (k : A -> M B) :
  grows m -> (forall a, grows (k a)) -> grows (bind m k).
Proof.
  intros Hm Hk s r s' Hrun. unfold bind in Hrun.
  destruct (m s) as [[a|e] s1] eqn:Hms.
  - destruct (Hm _ _ _ Hms) as [evs1 H1].
    destruct (Hk a _ _ _ Hrun) as [evs2 H2].
    exists (evs1 ++ evs2). now rewrite H2, H1, app_assoc.
  - injection Hrun as <- <-. exact (Hm _ _ _ Hms).
Qed.

Lemma grows_lift {A : Type} (r : result A) : grows (lift r).
Proof. intros s r' s' H. injection H as <- <-. exists []. now rewrite app_nil_r. Qed.

Lemma grows_ret {A : Type} (a : A) : grows (ret a).
Proof. intros s r' s' H. injection H as <- <-. exists []. now rewrite app_nil_r. Qed.

Lemma grows_raise {A : Type} (e : exn) : grows (@raise A e).
Proof. intros s r' s' H. injection H as <- <-. exists []. now rewrite app_nil_r. Qed.

Lemma grows_emit (e : event) : grows (emit e).
Proof. intros s r' s' H. injection H as <- <-. now exists [e]. Qed.

Lemma grows_read : grows read_tokens_.
Proof. intros s r' s' H. injection H as <- <-. exists []. now rewrite app_nil_r. Qed.

Lemma grows_write (t : json) : grows (write_tokens_ t).
Proof. intros s r' s' H. injection H as <- <-. now exists [Store t]. Qed.

Lemma grows_post (w : World) (g : grant) : grows (post_for_json w g).
Proof.
  unfold post_for_json. apply grows_bind; [apply grows_emit|]. intros _.
  apply grows_bind; [apply grows_lift|]. intros resp.
  destruct ((400 <=? status_code resp) && (status_code resp <? 600));
    [apply grows_raise | apply grows_lift].
Qed.

Lemma grows_stamp (w : World) (t : json) : grows (stamp_and_cache w t).
Proof.
  unfold stamp_and_cache.
  apply grows_bind; [apply grows_lift|]. intros stamped.
  apply grows_bind; [apply grows_read|]. intros cached.
  apply grows_bind; [apply grows_lift|]. intros cached'.
  apply grows_bind; [apply grows_write|]. intros _. apply grows_lift.
Qed.

(** The trace of an authorization with configured credentials: the browser,
    the listener, then a POST only for a code handed out by the listener. *)
Lemma authorize_trace (w : World) (s s' : state) (r : result json) :
  opt_truthy (client_id w) = true ->
  opt_truthy (client_secret w) = true ->
  authorize_and_cache_tokens parse_qsl w s = (r, s') ->
  exists rest,
    trace s' = trace s ++ Browser (token_urlsafe w) :: Listen (token_urlsafe w) :: rest /\
    match snd (_start_server_until_code parse_qsl (token_urlsafe w) (incoming w)) with
    | None => rest = [] /\ file s' = file s
    | Some c =>
        exists rest', rest = Post (AuthorizationCode c (verifier w)) :: rest' /\
                      forall g, In (Post g) rest' -> False
    end.
Proof.
  intros Hid Hsecret Hrun. unfold authorize_and_cache_tokens in Hrun.
  rewrite Hid, Hsecret in Hrun. simpl in Hrun.
  unfold bind at 1 2, emit in Hrun. simpl in Hrun.
  destruct (snd (_start_server_until_code parse_qsl (token_urlsafe w) (incoming w)))
    as [c|].
  - unfold bind at 1, post_for_json, bind at 1 2, emit, lift in Hrun. simpl in Hrun.
    rewrite <- !app_assoc in Hrun. simpl in Hrun.
    destruct (token_endpoint w (AuthorizationCode c (verifier w))) as [resp|e].
    + destruct ((400 <=? status_code resp) && (status_code resp <? 600)).
      * injection Hrun as <- <-. simpl. eexists. split; [reflexivity|].
        exists []. split; [reflexivity | intros g []].
      * destruct (json_body resp) as [t|e].
        -- unfold bind, read_tokens_, write_tokens_, lift, ret in Hrun. simpl in Hrun.
           destruct (read_tokens (file s)) as [cached|e].
           ++ destruct (py_setitem cached "whoop" t) as [cached'|e].
              ** injection Hrun as <- <-. simpl. rewrite <- app_assoc. simpl.
                 eexists. split; [reflexivity|].
                 eexists. split; [reflexivity|].
                 intros g [H|[]]. discriminate.
              ** injection Hrun as <- <-. simpl. eexists. split; [reflexivity|].
                 exists []. split; [reflexivity | intros g []].
           ++ injection Hrun as <- <-. simpl. eexists. split; [reflexivity|].
              exists []. split; [reflexivity | intros g []].
        -- injection Hrun as <- <-. simpl. eexists. split; [reflexivity|].
           exists []. split; [reflexivity | intros g []].
    + injection Hrun as <- <-. simpl. eexists. split; [reflexivity|].
      exists []. split; [reflexivity | intros g []].
  - unfold raise in Hrun. injection Hrun as <- <-. simpl. rewrite <- app_assoc. simpl.
    exists []. repeat split.
Qed.

(** X5: [authorize_and_cache_tokens] posts to the token endpoint at most
    once, and only the code of a first inbound request that was a callback
    carrying the generated state and a non-empty code; without the client id
    or the client secret it raises [RuntimeError] before the browser is
    opened, leaving the cache and the trace as they were. *)
Theorem authorize_posts_only_verified_code
    (w : World) (s s' : state) (r : result json) :
  token_urlsafe w <> ""%string ->
  authorize_and_cache_tokens parse_qsl w s = (r, s') ->
  (opt_truthy (client_id w) && opt_truthy (client_secret w) = false ->
   r = Raise (RuntimeError
                "WHOOP_CLIENT_ID and WHOOP_CLIENT_SECRET must be set in environment or .env")
   /\ s' = s) /\
  exists evs,
    trace s' = trace s ++ evs /\
    forall g, In (Post g) evs ->
      exists first rest c,
        incoming w = first :: rest /\
        String.prefix "/callback" first = true /\
        first_value "state" (parse_qsl first) = Some (token_urlsafe w) /\
        first_value "code" (parse_qsl first) = Some c /\
        c <> ""%string /\
        g = AuthorizationCode c (verifier w) /\
        List.length (List.filter (fun e => match e with Post _ => true | _ => false end) evs)
        = 1%nat.
Proof.
  intros Hstate Hrun.
  destruct (opt_truthy (client_id w)) eqn:Hid;
    [destruct (opt_truthy (client_secret w)) eqn:Hsecret|].
  - split; [discriminate|].
    destruct (authorize_trace w s s' r Hid Hsecret Hrun) as [rest [Htrace Hshape]].
    eexists. split; [exact Htrace|]. intros g Hg.
    destruct (snd (_start_server_until_code parse_qsl (token_urlsafe w) (incoming w)))
      as [c|] eqn:Hcode.
    + destruct Hshape as [rest' [-> Hno]].
      destruct (listener_code_origin _ _ _ Hstate Hcode)
        as [first [tl [Hinc [Hpre [Hst [Hc Hne]]]]]].
      exists first, tl, c. repeat split; try assumption.
      * destruct Hg as [H|[H|[H|H]]]; try discriminate.
        -- now injection H as <-.
        -- destruct (Hno g H).
      * simpl. f_equal.
        assert (Hnone : forall l, (forall g, In (Post g) l -> False) ->
                  List.filter (fun e => match e with Post _ => true | _ => false end) l = []).
        { induction l as [|e l IH]; intros Hl; [reflexivity|]. simpl.
          destruct e; try (apply IH; intros g0 Hg0; apply (Hl g0); now right).
          destruct (Hl g0). now left. }
        now rewrite (Hnone rest' Hno).
    + destruct Hshape as [-> _]. destruct Hg as [H|[H|[]]]; discriminate.
  - split.
    + intros _. unfold authorize_and_cache_tokens in Hrun. rewrite Hid, Hsecret in Hrun.
      simpl in Hrun. unfold raise in Hrun. injection Hrun as <- <-. now split.
    + unfold authorize_and_cache_tokens in Hrun. rewrite Hid, Hsecret in Hrun.
      simpl in Hrun. unfold raise in Hrun. injection Hrun as <- <-.
      exists []. split; [now rewrite app_nil_r | intros g []].
  - split.
    + intros _. unfold authorize_and_cache_tokens in Hrun. rewrite Hid in Hrun.
      simpl in Hrun. unfold raise in Hrun. injection Hrun as <- <-. now split.
    + unfold authorize_and_cache_tokens in Hrun. rewrite Hid in Hrun.
      simpl in Hrun. unfold raise in Hrun. injection Hrun as <- <-.
      exists []. split; [now rewrite app_nil_r | intros g []].
Qed.

Lemma post_for_json_trace (w : World) (g : grant) (s : state) :
  exists r, post_for_json w g s = (r, {| file := file s; trace := trace s ++ [Post g] |}).
Proof.
  unfold post_for_json, bind, emit, lift, raise. simpl.
  destruct (token_endpoint w g) as [resp|e]; [|eexists; reflexivity].
  destruct ((400 <=? status_code resp) && (status_code resp <? 600)); eexists; reflexivity.
Qed.

(** X6: a successful interactive authorization opens the browser, starts
    the listener, posts the received code with the PKCE verifier once, and
    writes the cache once: the answer of the token endpoint is returned and
    stored under ["whoop"] as received, the other entries of the cache are
    kept. *)
Theorem authorize_success_run
    (w : World) (s : state) (m : gmap string json) (c : string)
    (resp : http_response) (tokens : json) :
  opt_truthy (client_id w) = true ->
  opt_truthy (client_secret w) = true ->
  snd (_start_server_until_code parse_qsl (token_urlsafe w) (incoming w)) = Some c ->
  token_endpoint w (AuthorizationCode c (verifier w)) = Ok resp ->
  status_ok (status_code resp) = true ->
  json_body resp = Ok tokens ->
  read_tokens (file s) = Ok (JObj m) ->
  authorize_and_cache_tokens parse_qsl w s
  = (Ok tokens,
     {| file := Holds (JObj (<["whoop"%string := tokens]> m));
        trace := trace s ++
                 [Browser (token_urlsafe w); Listen (token_urlsafe w);
                  Post (AuthorizationCode c (verifier w));
                  Store (JObj (<["whoop"%string := tokens]> m))] |}) /\
  (forall k, k <> "whoop"%string -> (<["whoop"%string := tokens]> m) !! k = m !! k).
Proof.
  intros Hid Hsecret Hcode Hpost Hstatus Hbody Hread. split.
  - unfold authorize_and_cache_tokens. rewrite Hid, Hsecret. simpl.
    unfold bind at 1 2, emit. simpl. rewrite Hcode.
    unfold bind at 1. rewrite (post_for_json_ok w _ _ resp tokens Hpost Hstatus Hbody).
    unfold bind, read_tokens_, write_tokens_, lift, ret. simpl.
    rewrite Hread. simpl. rewrite <- !app_assoc. reflexivity.
  - intros k Hk. now rewrite lookup_insert_ne.
Qed.


(** X8: a cached bundle in which [access_token], [issued_at] or [expires_in]
    is missing, null, empty or 0 is never handed out from the cache: the call
    starts a renewal, whose first event is the POST of the refresh token when
    there is one and the opening of the browser otherwise. *)
Theorem incomplete_bundle_is_renewed
    (w : World) (s : state) (m b : gmap string json) :
  opt_truthy (client_id w) = true ->
  opt_truthy (client_secret w) = true ->
  read_tokens (file s) = Ok (JObj m) ->
  (if truthy (default JNull (m !! "whoop"%string))
   then default JNull (m !! "whoop"%string) else JObj ∅) = JObj b ->
  truthy (field b "access_token") = false \/
  truthy (field b "issued_at") = false \/
  truthy (field b "expires_in") = false ->
  exists rest,
    trace (snd (get_valid_token parse_qsl w s))
    = trace s ++
      (if truthy (field b "refresh_token")
       then Post (RefreshToken (field b "refresh_token"))
       else Browser (token_urlsafe w)) :: rest.
Proof.
  intros Hid Hsecret Hread Hb Hmissing.
  rewrite (get_valid_token_steps w s m b Hid Hsecret Hread Hb).
  assert (Hcheck : token_still_valid (field b "access_token") (field b "issued_at")
                     (field b "expires_in") (time_now w) = Ok false).
  { unfold token_still_valid.
    destruct Hmissing as [-> | [-> | ->]]; now rewrite ?andb_false_r. }
  rewrite Hcheck.
  destruct (truthy (field b "refresh_token")); simpl negb; cbv iota.
  - unfold bind.
    destruct (post_for_json_trace w (RefreshToken (field b "refresh_token")) s)
      as [r1 Hp]. rewrite Hp.
    destruct r1 as [t|e]; [|now exists []].
    destruct (stamp_and_cache w t _) as [r2 s2] eqn:Hs2.
    destruct (grows_stamp w t _ _ _ Hs2) as [evs Hevs]. simpl in Hevs |- *.
    exists evs. now rewrite Hevs, <- app_assoc.
  - unfold bind.
    destruct (authorize_and_cache_tokens parse_qsl w s) as [r1 s1] eqn:Hauth.
    destruct (authorize_trace w s s1 r1 Hid Hsecret Hauth) as [rest [Htrace _]].
    destruct r1 as [t|e]; [|simpl; eexists; exact Htrace].
    destruct (stamp_and_cache w t s1) as [r2 s2] eqn:Hs2.
    destruct (grows_stamp w t _ _ _ Hs2) as [evs Hevs]. simpl.
    eexists. rewrite Hevs, Htrace, <- app_assoc. reflexivity.
Qed.

End TokenRenewal.




Lemma malformed_cache_raises_attribute_error_witness :
  OAuth.get_valid_token OAuth.plain_parse_qsl OAuth.granting_world
    {| OAuth.file := Config.Holds (JArr []); OAuth.trace := [] |}
  = (Raise AttributeError, {| OAuth.file := Config.Holds (JArr []); OAuth.trace := [] |}).
Proof.
  refine (proj1 (malformed_cache_raises_attribute_error OAuth.plain_parse_qsl
                   OAuth.granting_world
                   {| OAuth.file := Config.Holds (JArr []); OAuth.trace := [] |} _ _)
            (JArr []) _ _);
    reflexivity.
Defined.

Lemma authorize_posts_only_verified_code_witness :
  let start := {| OAuth.file := Config.Absent; OAuth.trace := [] |} in
  let granted := OAuth.authorize_and_cache_tokens OAuth.plain_parse_qsl
                   OAuth.granting_world start in
  let refused := OAuth.authorize_and_cache_tokens OAuth.plain_parse_qsl
                   OAuth.unconfigured_world start in
  (exists c,
     OAuth.first_value "code" (OAuth.plain_parse_qsl "/callback?code=abc&state=xyz") = Some c /\
     In (OAuth.Post (OAuth.AuthorizationCode c "v")) (OAuth.trace (snd granted)) /\
     List.length
       (List.filter (fun e => match e with OAuth.Post _ => true | _ => false end)
          (OAuth.trace (snd granted))) = 1%nat) /\
  refused
  = (Raise (RuntimeError
              "WHOOP_CLIENT_ID and WHOOP_CLIENT_SECRET must be set in environment or .env"),
     start).
Proof.
  intros start granted refused. split.
  - destruct (authorize_posts_only_verified_code OAuth.plain_parse_qsl OAuth.granting_world
                start (snd granted) (fst granted))
      as [_ [evs [Hevs Hposts]]].
    + discriminate.
    + apply surjective_pairing.
    + change (OAuth.trace start ++ evs) with evs in Hevs.
      assert (Hin : In (OAuth.Post (OAuth.AuthorizationCode "abc" "v")) evs).
      { rewrite <- Hevs. vm_compute. right. right. left. reflexivity. }
      destruct (Hposts _ Hin) as [first [rest [c [Hinc [_ [_ [Hc [_ [Hg Hone]]]]]]]]].
      injection Hinc as <- _. exists c. split; [exact Hc|].
      rewrite Hevs. split; [|exact Hone].
      injection Hg as <-. exact Hin.
  - destruct (authorize_posts_only_verified_code OAuth.plain_parse_qsl
                OAuth.unconfigured_world start (snd refused) (fst refused))
      as [[Hr Hs] _].
    + discriminate.
    + apply surjective_pairing.
    + reflexivity.
    + rewrite (surjective_pairing refused). now rewrite Hr, Hs.
Defined.

Lemma authorize_success_run_witness :
  fst (OAuth.authorize_and_cache_tokens OAuth.plain_parse_qsl OAuth.granting_world
         {| OAuth.file := Config.Absent; OAuth.trace := [] |})
  = Ok (JObj OAuth.granted_bundle).
Proof.
  refine (f_equal fst
            (proj1 (authorize_success_run OAuth.plain_parse_qsl OAuth.granting_world
                      {| OAuth.file := Config.Absent; OAuth.trace := [] |} ∅ "abc"
                      {| OAuth.status_code := 200;
                         OAuth.json_body := Ok (JObj OAuth.granted_bundle) |}
                      (JObj OAuth.granted_bundle) _ _ _ _ _ _ _)));
    vm_compute; reflexivity.
Defined.


Lemma incomplete_bundle_is_renewed_witness :
  exists rest,
    OAuth.trace (snd (OAuth.get_valid_token OAuth.plain_parse_qsl OAuth.granting_world
                        {| OAuth.file := Config.Absent; OAuth.trace := [] |}))
    = [] ++ OAuth.Browser "xyz" :: rest.
Proof.
  refine (incomplete_bundle_is_renewed OAuth.plain_parse_qsl OAuth.granting_world
            {| OAuth.file := Config.Absent; OAuth.trace := [] |} ∅ ∅ _ _ _ _ _);
    try reflexivity. now left.
Defined.

(** ** More on the two analyses *)

Section AnalysesMore.
Import Analyzer.
Open Scope Q_scope.

Variable groupby_sum : list Q -> Q.
Variable corr : list (option Q * option Q) -> option Q.

(** When the [score] column is missing, and when it has dtype [object]. *)
Lemma score_column_missing (l : list RecoveryRecord) :
  score_column l = NoColumn <-> forall r, In r l -> rec_cell r = NoKey.
Proof.
  unfold score_column.
  destruct (forallb (fun r => match rec_cell r with NoKey => true | _ => false end) l) eqn:E1.
  - rewrite forallb_forall in E1. split; [|reflexivity].
    intros _ r Hin. specialize (E1 r Hin). now destruct (rec_cell r).
  - split.
    + destruct (forallb (fun r => match rec_cell r with Null => true | _ => false end) l);
        intros H; discriminate H.
    + intros H. assert (Hall : forallb
                         (fun r => match rec_cell r with NoKey => true | _ => false end) l
                       = true).
      { apply forallb_forall. intros r Hin. now rewrite (H r Hin). }
      congruence.
Qed.

Lemma score_column_of_nulls (l : list RecoveryRecord) :
  l <> [] -> (forall r, In r l -> rec_cell r = Null) -> score_column l = ObjectColumn.
Proof.
  intros Hne H. unfold score_column.
  destruct l as [|r0 l]; [congruence|].
  assert (H0 : rec_cell r0 = Null) by (apply H; now left).
  simpl forallb at 1. rewrite H0. simpl.
  assert (Hall : forallb (fun r => match rec_cell r with Null => true | _ => false end) l
                 = true).
  { apply forallb_forall. intros r Hin. rewrite (H r); [reflexivity | now right]. }
  now rewrite H0, Hall.
Qed.

(** A returned spending report, field by field. *)
Lemma spending_report_inv
    (recovery : list RecoveryRecord) (txs : list Transaction) (rep : spending_report) :
  analyze_spending_vs_recovery groupby_sum corr recovery txs = Ok (Report rep) ->
  recovery <> [] /\ txs <> [] /\ score_column recovery = NumericColumn /\
  spending_by_recovery rep = omap (category_stats recovery txs) [Low; Medium; High] /\
  data_points rep = List.length (merge_outer recovery (daily_spending groupby_sum txs)).
Proof.
  unfold analyze_spending_vs_recovery.
  destruct recovery as [|r0 rs]; [discriminate|]. destruct txs as [|t0 ts]; [discriminate|].
  destruct (score_column (r0 :: rs)); try discriminate.
  intros H. injection H as <-. repeat split; discriminate.
Qed.

(** X9: the "no data" answer is given exactly for an empty input.  With a
    workout and a transaction the workout analysis returns a report.  With a
    recovery record and a transaction the spending analysis returns a report
    when some record holds a number as its score; it raises [KeyError]
    exactly when no record has a score key, and [TypeError] when the score of
    every record is null. *)
Theorem no_data_exactly_for_empty_input
    (recovery : list RecoveryRecord) (workouts : list Workout) (txs : list Transaction) :
  (analyze_spending_vs_recovery groupby_sum corr recovery txs = Ok NoData
   <-> recovery = [] \/ txs = []) /\
  (analyze_workout_impact_on_spending workouts txs = Ok NoData
   <-> workouts = [] \/ txs = []) /\
  (workouts <> [] -> txs <> [] ->
   exists a, analyze_workout_impact_on_spending workouts txs = Ok (Report a)) /\
  (recovery <> [] -> txs <> [] ->
   ((exists r s, In r recovery /\ rec_cell r = Score s) ->
    exists rep, analyze_spending_vs_recovery groupby_sum corr recovery txs = Ok (Report rep)) /\
   (analyze_spending_vs_recovery groupby_sum corr recovery txs = Raise (KeyError "score")
    <-> forall r, In r recovery -> rec_cell r = NoKey) /\
   ((forall r, In r recovery -> rec_cell r = Null) ->
    analyze_spending_vs_recovery groupby_sum corr recovery txs = Raise TypeError)).
Proof.
  split; [|split; [|split]].
  - split.
    + unfold analyze_spending_vs_recovery.
      destruct recovery as [|r0 rs]; [now left|]. destruct txs as [|t0 ts]; [now right|].
      destruct (score_column (r0 :: rs)); discriminate.
    + intros [-> | ->]; [reflexivity | now destruct recovery].
  - split.
    + destruct workouts as [|w0 ws]; [now left|]. destruct txs as [|t0 ts]; [now right|].
      intros H. exfalso.
      destruct (split_days (w0 :: ws) (t0 :: ts)) as [w n] eqn:Hsplit.
      destruct (analyze_workout_impact_report (w0 :: ws) (t0 :: ts) w n)
        as [wa [na [_ [_ Hrun]]]]; [discriminate | discriminate | exact Hsplit |].
      rewrite Hrun in H. discriminate.
    + intros [-> | ->]; [reflexivity | now destruct workouts].
  - intros Hw Ht.
    destruct (split_days workouts txs) as [w n] eqn:Hsplit.
    destruct (analyze_workout_impact_report workouts txs w n Hw Ht Hsplit)
      as [wa [na [_ [_ Hrun]]]].
    eexists. exact Hrun.
  - intros Hr Ht. unfold analyze_spending_vs_recovery.
    destruct recovery as [|r0 rs]; [congruence|]. destruct txs as [|t0 ts]; [congruence|].
    split; [|split].
    + intros Hnum. rewrite (score_column_numeric _ Hnum). eexists. reflexivity.
    + rewrite <- score_column_missing.
      destruct (score_column (r0 :: rs)); split; intros H; try discriminate; reflexivity.
    + intros Hnull. now rewrite (score_column_of_nulls _ Hr Hnull).
Qed.

(** The loop of [split_days], from any pair of lists: the totals of the
    workout days go to the first list and those of the other days to the
    second, in the order of the days. *)
Lemma split_loop_lists (is_workout_day : Z -> bool) (txs : list Transaction)
    (days : list Z) (w0 n0 : list Q) :
  fold_left
    (fun '(w, n) date =>
       if is_workout_day date
       then (w ++ [day_total date txs], n) else (w, n ++ [day_total date txs]))
    days (w0, n0)
  = (w0 ++ map (fun d => day_total d txs) (List.filter is_workout_day days),
     n0 ++ map (fun d => day_total d txs)
             (List.filter (fun d => negb (is_workout_day d)) days)).
Proof.
  revert w0 n0. induction days as [|d days IH]; intros w0 n0; simpl.
  - now rewrite !app_nil_r.
  - destruct (is_workout_day d); simpl; rewrite IH, <- app_assoc; reflexivity.
Qed.

Lemma filter_split_length {A : Type} (f : A -> bool) (l : list A) :
  (List.length (List.filter f l) + List.length (List.filter (fun x => negb (f x)) l)
   = List.length l)%nat.
Proof.
  induction l as [|x l IH]; [reflexivity|]. simpl. destruct (f x); simpl; lia.
Qed.

(** The set test of [split_days] is a search through the workouts. *)
Lemma workout_dates_test (workouts : list Workout) (d : Z) :
  bool_decide (d ∈ (list_to_set (map (fun wo => dt_date (wo_date wo)) workouts) : gset Z))
  = existsb (fun wo => (dt_date (wo_date wo) =? d)%Z) workouts.
Proof.
  apply eq_true_iff_eq. rewrite bool_decide_eq_true, existsb_exists.
  rewrite elem_of_list_to_set, list_elem_of_In, in_map_iff. split.
  - intros [wo [<- Hin]]. exists wo. split; [exact Hin | apply Z.eqb_refl].
  - intros [wo [Hin Heq]]. exists wo. apply Z.eqb_eq in Heq. now split.
Qed.

Lemma split_days_lists (workouts : list Workout) (txs : list Transaction) :
  let days := unique (map (fun t => dt_date (tx_date t)) txs) in
  let on_workout_day d := existsb (fun wo => (dt_date (wo_date wo) =? d)%Z) workouts in
  split_days workouts txs
  = (map (fun d => day_total d txs) (List.filter on_workout_day days),
     map (fun d => day_total d txs) (List.filter (fun d => negb (on_workout_day d)) days)).
Proof.
  intros days on_workout_day. unfold split_days.
  set (dates := (list_to_set (map (fun wo => dt_date (wo_date wo)) workouts) : gset Z)).
  change (unique (map (fun t => dt_date (tx_date t)) txs)) with days.
  etransitivity;
    [exact (split_loop_lists (fun d => bool_decide (d ∈ dates)) txs days [] [])|].
  simpl app. f_equal; f_equal; apply List.filter_ext; intros d; unfold dates;
    now rewrite workout_dates_test.
Qed.

(** X10: the workout-day split is a partition of the distinct transaction
    dates.  Every such date is on exactly one side, the workout side exactly
    when some workout has that calendar date (whatever its time of day); each
    side lists the totals of its days in order of first appearance, and the
    count and the total of a side are the number of its days and the sum of
    their totals. *)
Theorem workout_split_is_a_partition
    (workouts : list Workout) (txs : list Transaction) (a : workout_analysis) :
  analyze_workout_impact_on_spending workouts txs = Ok (Report a) ->
  let days := unique (map (fun t => dt_date (tx_date t)) txs) in
  let on_workout_day d := existsb (fun wo => (dt_date (wo_date wo) =? d)%Z) workouts in
  let workout_side := List.filter on_workout_day days in
  let other_side := List.filter (fun d => negb (on_workout_day d)) days in
  NoDup days /\
  (forall d, In d days ->
     (In d workout_side /\ ~ In d other_side) \/ (~ In d workout_side /\ In d other_side)) /\
  split_days workouts txs
  = (map (fun d => day_total d txs) workout_side,
     map (fun d => day_total d txs) other_side) /\
  count (workout_days a) = List.length workout_side /\
  count (non_workout_days a) = List.length other_side /\
  (count (workout_days a) + count (non_workout_days a) = List.length days)%nat /\
  total_spending (workout_days a) = py_sum (map (fun d => day_total d txs) workout_side) /\
  total_spending (non_workout_days a) = py_sum (map (fun d => day_total d txs) other_side).
Proof.
  intros Hrun days on_workout_day workout_side other_side.
  pose proof (split_days_lists workouts txs) as Hsplit. cbv zeta in Hsplit.
  fold days in Hsplit. fold on_workout_day in Hsplit.
  fold workout_side in Hsplit. fold other_side in Hsplit.
  destruct workouts as [|w0 ws]; [discriminate|].
  destruct txs as [|t0 ts]; [discriminate|].
  destruct (analyze_workout_impact_report (w0 :: ws) (t0 :: ts) _ _
              ltac:(discriminate) ltac:(discriminate) Hsplit)
    as [wa [na [_ [_ Hrun']]]].
  rewrite Hrun' in Hrun. injection Hrun as <-. cbn [workout_days non_workout_days count
    total_spending].
  split; [apply NoDup_unique|]. split.
  { intros d Hd. unfold workout_side, other_side. rewrite !List.filter_In.
    destruct (on_workout_day d); simpl; [left | right]; intuition discriminate. }
  split; [exact Hsplit|].
  rewrite !length_map.
  split; [reflexivity|]. split; [reflexivity|].
  split; [apply filter_split_length|]. split; reflexivity.
Qed.

Ltac q_reflect :=
  repeat match goal with
    | H : Qlt_bool _ _ = true |- _ => apply Qlt_bool_iff in H
    | H : Qlt_bool _ _ = false |- _ => apply Qlt_bool_false_iff in H
    | H : Qle_bool _ _ = true |- _ => apply Qle_bool_iff in H
    | H : Qle_bool _ _ = false |- _ => apply Qle_bool_false_iff in H
    | H : Qeq_bool _ _ = true |- _ => apply Qeq_bool_iff in H
    | H : Qeq_bool _ _ = false |- _ => apply Qeq_bool_neq in H
    end.

Lemma py_max_fold (rest : list Q) (m : Q) :
  (py_max m rest = m \/ In (py_max m rest) rest) /\
  m <= py_max m rest /\
  (forall x, In x rest -> x <= py_max m rest).
Proof.
  unfold py_max. revert m. induction rest as [|x rest IH]; intros m; simpl.
  - split; [now left|]. split; [lra | intros x []].
  - destruct (IH (if Qlt_bool m x then x else m)) as [Hin [Hle Hall]].
    destruct (Qlt_bool m x) eqn:E; q_reflect.
    + split; [destruct Hin as [-> | Hin]; right; [now left | now right]|].
      split; [lra|]. intros y [<- | Hy]; [exact Hle | now apply Hall].
    + split; [destruct Hin as [-> | Hin]; [now left | right; now right]|].
      split; [exact Hle|]. intros y [<- | Hy]; [lra | now apply Hall].
Qed.

Lemma py_min_fold (rest : list Q) (m : Q) :
  (py_min m rest = m \/ In (py_min m rest) rest) /\
  py_min m rest <= m /\
  (forall x, In x rest -> py_min m rest <= x).
Proof.
  unfold py_min. revert m. induction rest as [|x rest IH]; intros m; simpl.
  - split; [now left|]. split; [lra | intros x []].
  - destruct (IH (if Qlt_bool x m then x else m)) as [Hin [Hle Hall]].
    destruct (Qlt_bool x m) eqn:E; q_reflect.
    + split; [destruct Hin as [-> | Hin]; right; [now left | now right]|].
      split; [lra|]. intros y [<- | Hy]; [exact Hle | now apply Hall].
    + split; [destruct Hin as [-> | Hin]; [now left | right; now right]|].
      split; [exact Hle|]. intros y [<- | Hy]; [lra | now apply Hall].
Qed.

Lemma py_max_spec (first : Q) (rest : list Q) :
  In (py_max first rest) (first :: rest) /\
  (forall x, In x (first :: rest) -> x <= py_max first rest).
Proof.
  destruct (py_max_fold rest first) as [Hin [Hle Hall]]. split.
  - destruct Hin as [-> | Hin]; [now left | now right].
  - intros x [<- | Hx]; [exact Hle | now apply Hall].
Qed.

Lemma py_min_spec (first : Q) (rest : list Q) :
  In (py_min first rest) (first :: rest) /\
  (forall x, In x (first :: rest) -> py_min first rest <= x).
Proof.
  destruct (py_min_fold rest first) as [Hin [Hle Hall]]. split.
  - destruct Hin as [-> | Hin]; [now left | now right].
  - intros x [<- | Hx]; [exact Hle | now apply Hall].
Qed.

(** X11: in the report's recovery statistics, [best_score] and
    [worst_score] are scores that were counted, and every counted score lies
    between them. *)
Theorem recovery_statistics_are_bounded (l : list RecoveryRecord) (st : recovery_stats) :
  recovery_analysis l = Ok (Some st) ->
  In (best_score st) (recovery_scores l) /\
  In (worst_score st) (recovery_scores l) /\
  (forall s, In s (recovery_scores l) -> worst_score st <= s /\ s <= best_score st) /\
  worst_score st <= best_score st.
Proof.
  unfold recovery_analysis. destruct (recovery_scores l) as [|first rest]; [discriminate|].
  simpl. intros H. injection H as <-. simpl.
  destruct (py_max_spec first rest) as [Hmax_in Hmax].
  destruct (py_min_spec first rest) as [Hmin_in Hmin].
  split; [exact Hmax_in|]. split; [exact Hmin_in|].
  split; [intros s Hs; split; [now apply Hmin | now apply Hmax]|].
  apply Hmax. exact Hmin_in.
Qed.

Lemma three_way_count (l : list Q) :
  (List.length (List.filter (fun s => Qle_bool s 33) l)
   + List.length (List.filter (fun s => Qlt_bool 33 s && Qle_bool s 66) l)
   + List.length (List.filter (fun s => Qlt_bool 66 s) l))%nat
  = List.length l.
Proof.
  induction l as [|s l IH]; [reflexivity|]. simpl.
  destruct (Qle_bool s 33) eqn:E1, (Qlt_bool 33 s) eqn:E2, (Qle_bool s 66) eqn:E3,
           (Qlt_bool 66 s) eqn:E4; simpl; try lia; exfalso; q_reflect; lra.
Qed.

(** X12: the [score_distribution] of the report counts every counted score
    exactly once: low + medium + high is the number of recovery records whose
    score is present and not 0, whatever the scores are. *)
Theorem score_distribution_counts_every_score
    (l : list RecoveryRecord) (st : recovery_stats) :
  recovery_analysis l = Ok (Some st) ->
  (low (distribution st) + medium (distribution st) + high (distribution st))%nat
  = List.length (List.filter (fun r => score_truthy (rec_score r)) l).
Proof.
  unfold recovery_analysis.
  destruct (recovery_scores l) as [|first rest] eqn:Hscores; [discriminate|].
  simpl py_div. cbv iota. unfold rbind. intros H. injection H as <-.
  cbn [distribution low medium high].
  etransitivity; [exact (three_way_count (first :: rest))|].
  rewrite <- Hscores. unfold recovery_scores. apply length_map.
Qed.

Lemma count_filter_map_filter {A : Type} (q : A -> bool) (f : A -> Q) (p : Q -> bool)
    (l : list A) :
  List.length (List.filter p (map f (List.filter q l)))
  = List.length (List.filter (fun x => q x && p (f x)) l).
Proof.
  induction l as [|x l IH]; [reflexivity|]. simpl.
  destruct (q x); simpl; [|exact IH]. destruct (p (f x)); simpl; now rewrite IH.
Qed.

Lemma counted_like_band (r : RecoveryRecord) :
  (forall s, rec_score r = Some s -> 0 <= s /\ s <= 100) ->
  (score_truthy (rec_score r) && Qle_bool (default 0 (rec_score r)) 33
   = bool_decide (recovery_category (rec_score r) = Some Low)) /\
  (score_truthy (rec_score r)
   && (Qlt_bool 33 (default 0 (rec_score r)) && Qle_bool (default 0 (rec_score r)) 66)
   = bool_decide (recovery_category (rec_score r) = Some Medium)) /\
  (score_truthy (rec_score r) && Qlt_bool 66 (default 0 (rec_score r))
   = bool_decide (recovery_category (rec_score r) = Some High)).
Proof.
  intros Hrange. destruct (rec_score r) as [s|]; [|repeat split].
  destruct (Hrange s eq_refl) as [H0 H100].
  rewrite recovery_category_intervals. simpl score_truthy. simpl default.
  destruct (Qeq_bool s 0) eqn:E0, (Qlt_bool 0 s) eqn:E1, (Qle_bool s 33) eqn:E2,
           (Qlt_bool 33 s) eqn:E3, (Qle_bool s 66) eqn:E4, (Qlt_bool 66 s) eqn:E5,
           (Qle_bool s 100) eqn:E6;
    try (repeat split; reflexivity); exfalso; q_reflect; lra.
Qed.

Lemma distribution_fields (l : list RecoveryRecord) (st : recovery_stats) :
  recovery_analysis l = Ok (Some st) ->
  low (distribution st)
  = List.length (List.filter (fun s => Qle_bool s 33) (recovery_scores l)) /\
  medium (distribution st)
  = List.length (List.filter (fun s => Qlt_bool 33 s && Qle_bool s 66) (recovery_scores l)) /\
  high (distribution st)
  = List.length (List.filter (fun s => Qlt_bool 66 s) (recovery_scores l)).
Proof.
  unfold recovery_analysis.
  destruct (recovery_scores l) as [|first rest]; [discriminate|].
  simpl py_div. cbv iota. unfold rbind. intros H. injection H as <-.
  repeat split; reflexivity.
Qed.

(** X13: for recovery records whose scores all lie in the range 0..100,
    the report's [score_distribution] and the bands of the spending analysis
    agree: low, medium and high are the numbers of records that [pd.cut] puts
    in Low, Medium and High, a score of 0 being left out by both. *)
Theorem score_distribution_agrees_with_bands
    (l : list RecoveryRecord) (st : recovery_stats) :
  (forall r s, In r l -> rec_score r = Some s -> 0 <= s /\ s <= 100) ->
  recovery_analysis l = Ok (Some st) ->
  let in_band b :=
    List.length
      (List.filter (fun r => bool_decide (recovery_category (rec_score r) = Some b)) l) in
  low (distribution st) = in_band Low /\
  medium (distribution st) = in_band Medium /\
  high (distribution st) = in_band High.
Proof.
  intros Hrange Hrun in_band.
  destruct (distribution_fields l st Hrun) as [-> [-> ->]].
  unfold recovery_scores, in_band. rewrite !count_filter_map_filter.
  repeat split; f_equal; apply List.filter_ext_in; intros r Hr;
    apply (counted_like_band r); intros s Hs; exact (Hrange r s Hr Hs).
Qed.


Lemma daily_spending_has_one_row_per_day_aux (txs : list Transaction) :
  StronglySorted (fun r1 r2 => (dt_date (tx_date r1) < dt_date (tx_date r2))%Z)
    (daily_spending groupby_sum txs) /\
  List.length (daily_spending groupby_sum txs)
  = List.length (unique (map (fun t => dt_date (tx_date t)) txs)).
Proof.
  split; [apply daily_spending_sorted|].
  rewrite <- (length_map (fun r => dt_date (tx_date r)) (daily_spending groupby_sum txs)).
  apply Permutation_length. apply NoDup_Permutation.
  - apply sorted_days_NoDup, daily_spending_sorted.
  - apply NoDup_unique.
  - intros d. rewrite !list_elem_of_In, In_unique. apply days_of_daily_spending.
Qed.

(** X15: the daily spending table has one row per calendar day on which
    there is a transaction, and no other row: its rows are in strictly
    increasing date order and there are as many rows as distinct transaction
    dates. *)
Theorem daily_spending_has_one_row_per_day (txs : list Transaction) :
  StronglySorted (fun r1 r2 => (dt_date (tx_date r1) < dt_date (tx_date r2))%Z)
    (daily_spending groupby_sum txs) /\
  (forall d, In d (map (fun r => dt_date (tx_date r)) (daily_spending groupby_sum txs))
             <-> In d (map (fun t => dt_date (tx_date t)) txs)) /\
  List.length (daily_spending groupby_sum txs)
  = List.length (unique (map (fun t => dt_date (tx_date t)) txs)).
Proof.
  split; [apply daily_spending_sorted|].
  split; [intros d; apply days_of_daily_spending|].
  rewrite <- (length_map (fun r => dt_date (tx_date r)) (daily_spending groupby_sum txs)).
  apply Permutation_length. apply NoDup_Permutation.
  - apply sorted_days_NoDup, daily_spending_sorted.
  - apply NoDup_unique.
  - intros d. rewrite !list_elem_of_In, In_unique. apply days_of_daily_spending.
Qed.

Lemma at_most_one_row (rows : list Transaction) (stamp : Timestamp) :
  StronglySorted (fun r1 r2 => (dt_date (tx_date r1) < dt_date (tx_date r2))%Z) rows ->
  (List.length (List.filter (fun t => bool_decide (tx_date t = stamp)) rows) <= 1)%nat.
Proof.
  induction 1 as [|r rows Hrows IH Hall]; simpl; [lia|].
  destruct (bool_decide (tx_date r = stamp)) eqn:E; [|exact IH].
  apply bool_decide_eq_true in E. simpl.
  assert (Hnone : List.filter (fun t => bool_decide (tx_date t = stamp)) rows = []).
  { clear IH Hrows. induction rows as [|r' rows IH]; [reflexivity|]. simpl.
    inversion Hall as [|? ? Hlt Hall']; subst.
    rewrite bool_decide_eq_false_2; [now apply IH|].
    intros Heq. rewrite Heq in Hlt. lia. }
  rewrite Hnone. simpl. lia.
Qed.

Lemma flat_map_length_ones {A B : Type} (f : A -> list B) (l : list A) :
  (forall x, In x l -> List.length (f x) = 1%nat) ->
  List.length (flat_map f l) = List.length l.
Proof.
  induction l as [|x l IH]; intros H; [reflexivity|]. simpl.
  rewrite length_app, IH, (H x); [reflexivity | now left |].
  intros y Hy. apply H. now right.
Qed.

Lemma merge_outer_length (left : list RecoveryRecord) (rows : list Transaction) :
  StronglySorted (fun r1 r2 => (dt_date (tx_date r1) < dt_date (tx_date r2))%Z) rows ->
  List.length (merge_outer left rows)
  = (List.length left
     + List.length
         (List.filter
            (fun t => negb (existsb (fun r => bool_decide (rec_date r = tx_date t)) left))
            rows))%nat.
Proof.
  intros Hsorted. unfold merge_outer. rewrite length_app, length_map. f_equal.
  apply flat_map_length_ones. intros r _.
  pose proof (at_most_one_row rows (rec_date r) Hsorted) as Hone.
  destruct (List.filter (fun t => bool_decide (tx_date t = rec_date r)) rows)
    as [|t1 [|t2 more]]; simpl in *; [reflexivity | reflexivity | lia].
Qed.

(** X16: [data_points] of the spending analysis counts every recovery
    record once, plus every day of the daily spending table that no recovery
    record is stamped with (at midnight of that day). *)
Theorem data_points_count
    (recovery : list RecoveryRecord) (txs : list Transaction) (rep : spending_report) :
  analyze_spending_vs_recovery groupby_sum corr recovery txs = Ok (Report rep) ->
  data_points rep
  = (List.length recovery
     + List.length
         (List.filter
            (fun row =>
               negb (existsb (fun r => bool_decide (rec_date r = tx_date row)) recovery))
            (daily_spending groupby_sum txs)))%nat /\
  (List.length recovery <= data_points rep)%nat /\
  (data_points rep
   <= List.length recovery
      + List.length (unique (map (fun t => dt_date (tx_date t)) txs)))%nat.
Proof.
  intros Hrun.
  destruct (daily_spending_has_one_row_per_day_aux txs) as [Hsorted Hlen].
  destruct (spending_report_inv _ _ _ Hrun) as [_ [_ [_ [_ Hdp]]]].
  rewrite Hdp, (merge_outer_length recovery _ Hsorted).
  split; [reflexivity|]. split; [lia|].
  rewrite <- Hlen.
  pose proof (List.filter_length_le
                (fun row =>
                   negb (existsb (fun r => bool_decide (rec_date r = tx_date row)) recovery))
                (daily_spending groupby_sum txs)).
  lia.
Qed.

Lemma category_stats_some (recovery : list RecoveryRecord) (txs : list Transaction)
    (category b : band) (st : band_stats) :
  category_stats recovery txs category = Some (b, st) ->
  b = category /\
  (exists r, In r recovery /\ recovery_category (rec_score r) = Some category) /\
  let counted :=
    List.filter
      (fun t =>
         existsb (fun d => bool_decide (d = tx_date t))
           (map rec_date
              (List.filter
                 (fun r => bool_decide (recovery_category (rec_score r) = Some category))
                 recovery)))
      txs in
  band_transaction_count st = List.length counted /\
  band_total_spending st = py_sum (map tx_amount counted) /\
  band_avg_daily_spending st = series_mean (map tx_amount counted).
Proof.
  unfold category_stats.
  destruct (List.filter
              (fun r => bool_decide (recovery_category (rec_score r) = Some category))
              recovery) as [|r0 rs] eqn:Hfilter; [discriminate|].
  simpl map. intros H. injection H as <- <-. split; [reflexivity|]. split.
  - exists r0.
    assert (Hin : In r0 (List.filter
                           (fun r => bool_decide
                                       (recovery_category (rec_score r) = Some category))
                           recovery)) by (rewrite Hfilter; now left).
    apply List.filter_In in Hin. destruct Hin as [Hin Hcat].
    apply bool_decide_eq_true in Hcat. now split.
  - repeat split.
Qed.

Lemma category_stats_none (recovery : list RecoveryRecord) (txs : list Transaction)
    (category : band) :
  category_stats recovery txs category = None ->
  forall r, In r recovery -> recovery_category (rec_score r) <> Some category.
Proof.
  unfold category_stats.
  destruct (List.filter
              (fun r => bool_decide (recovery_category (rec_score r) = Some category))
              recovery) as [|r0 rs] eqn:Hfilter; [|discriminate].
  intros _ r Hin Hcat.
  assert (Hr : In r (List.filter
                       (fun r => bool_decide
                                   (recovery_category (rec_score r) = Some category))
                       recovery)).
  { apply List.filter_In. split; [exact Hin | now apply bool_decide_eq_true]. }
  rewrite Hfilter in Hr. destruct Hr.
Qed.

(** X17: [spending_by_recovery] has an entry for a band exactly when some
    recovery record falls in that band; the entry counts and totals the
    transactions whose timestamp (time of day included) equals the timestamp
    of a recovery record of that band.  Records scored 0, out of range or
    without a score give no entry. *)
Theorem spending_by_recovery_entries
    (recovery : list RecoveryRecord) (txs : list Transaction) (rep : spending_report) :
  analyze_spending_vs_recovery groupby_sum corr recovery txs = Ok (Report rep) ->
  (forall b, In b (map fst (spending_by_recovery rep))
             <-> exists r, In r recovery /\ recovery_category (rec_score r) = Some b) /\
  (forall b st, In (b, st) (spending_by_recovery rep) ->
     let counted :=
       List.filter
         (fun t =>
            existsb (fun r => bool_decide (recovery_category (rec_score r) = Some b)
                              && bool_decide (rec_date r = tx_date t))
              recovery)
         txs in
     band_transaction_count st = List.length counted /\
     band_total_spending st = py_sum (map tx_amount counted)).
Proof.
  intros Hrun.
  destruct (spending_report_inv _ _ _ Hrun) as [_ [_ [_ [Hbands _]]]].
  rewrite Hbands. split.
  - intros b. rewrite in_map_iff. split.
    + intros [[b' st] [Hb Hin]]. simpl in Hb. subst b'.
      apply list_elem_of_In, list_elem_of_omap in Hin.
      destruct Hin as [c [_ Hc]].
      destruct (category_stats_some _ _ _ _ _ Hc) as [-> [Hex _]]. exact Hex.
    + intros [r [Hin Hcat]].
      destruct (category_stats recovery txs b) as [[b' st]|] eqn:Hc.
      * destruct (category_stats_some _ _ _ _ _ Hc) as [-> _].
        exists (b, st). split; [reflexivity|].
        apply list_elem_of_In, list_elem_of_omap. exists b. split; [|exact Hc].
        apply list_elem_of_In. destruct b; simpl; tauto.
      * destruct (category_stats_none _ _ _ Hc r Hin Hcat).
  - intros b st Hin counted.
    apply list_elem_of_In, list_elem_of_omap in Hin. destruct Hin as [c [_ Hc]].
    destruct (category_stats_some _ _ _ _ _ Hc) as [-> [_ [Hcount [Htotal _]]]].
    assert (Hsame : counted
                    = List.filter
                        (fun t =>
                           existsb (fun d => bool_decide (d = tx_date t))
                             (map rec_date
                                (List.filter
                                   (fun r => bool_decide
                                               (recovery_category (rec_score r) = Some c))
                                   recovery)))
                        txs).
    { unfold counted. apply List.filter_ext. intros t.
      clear. induction recovery as [|r rs IH]; [reflexivity|]. simpl.
      destruct (bool_decide (recovery_category (rec_score r) = Some c)); simpl;
        now rewrite IH. }
    rewrite Hsame. split; assumption.
Qed.

End AnalysesMore.

Lemma no_data_exactly_for_empty_input_witness :
  (exists rep,
     Analyzer.analyze_spending_vs_recovery float64_sum (fun _ => None)
       Samples.three_scores Samples.two_days_txs = Ok (Analyzer.Report rep)) /\
  Analyzer.analyze_spending_vs_recovery float64_sum (fun _ => None)
    Samples.unscored Samples.two_days_txs = Raise (KeyError "score").
Proof.
  destruct (no_data_exactly_for_empty_input float64_sum (fun _ => None)
              Samples.three_scores Samples.two_days_workouts Samples.two_days_txs)
    as [_ [_ [_ H1]]].
  destruct (no_data_exactly_for_empty_input float64_sum (fun _ => None)
              Samples.unscored Samples.two_days_workouts Samples.two_days_txs)
    as [_ [_ [_ H2]]].
  split.
  - apply H1; [discriminate | discriminate |].
    eexists _, _. split; [left; reflexivity | reflexivity].
  - apply H2; [discriminate | discriminate |].
    intros r [<- | [<- | []]]; reflexivity.
Defined.

Lemma workout_split_is_a_partition_witness :
  Analyzer.split_days Samples.two_days_workouts Samples.two_days_txs
  = ([Analyzer.day_total 1 Samples.two_days_txs], [Analyzer.day_total 2 Samples.two_days_txs])
  /\ Analyzer.count (Analyzer.workout_days Samples.two_days_analysis) = 1%nat.
Proof.
  pose proof (workout_split_is_a_partition Samples.two_days_workouts Samples.two_days_txs
                Samples.two_days_analysis) as H.
  destruct H as [_ [_ [Hsplit [Hcount _]]]]; [vm_compute; reflexivity|].
  split; [exact Hsplit | exact Hcount].
Defined.

Lemma recovery_statistics_are_bounded_witness :
  (Analyzer.worst_score Samples.three_scores_stats <= 80)%Q /\
  (80 <= Analyzer.best_score Samples.three_scores_stats)%Q.
Proof.
  pose proof (recovery_statistics_are_bounded Samples.three_scores
                Samples.three_scores_stats) as H.
  destruct H as [_ [_ [H _]]]; [vm_compute; reflexivity|].
  apply H. right. left. reflexivity.
Defined.

Lemma score_distribution_counts_every_score_witness :
  (Analyzer.low (Analyzer.distribution Samples.three_scores_stats)
   + Analyzer.medium (Analyzer.distribution Samples.three_scores_stats)
   + Analyzer.high (Analyzer.distribution Samples.three_scores_stats) = 2)%nat.
Proof.
  pose proof (score_distribution_counts_every_score Samples.three_scores
                Samples.three_scores_stats) as H.
  rewrite H; [|vm_compute; reflexivity]. reflexivity.
Defined.

Lemma score_distribution_agrees_with_bands_witness :
  Analyzer.high (Analyzer.distribution Samples.three_scores_stats) = 1%nat.
Proof.
  pose proof (score_distribution_agrees_with_bands Samples.three_scores
                Samples.three_scores_stats) as H.
  destruct H as [_ [_ H]].
  - intros r s [<- | [<- | [<- | []]]] Hs; injection Hs as <-; split; lra.
  - vm_compute. reflexivity.
  - rewrite H. reflexivity.
Defined.


Lemma data_points_count_witness :
  exists rep,
    Analyzer.analyze_spending_vs_recovery float64_sum (fun _ => None)
      Samples.three_scores Samples.two_days_txs = Ok (Analyzer.Report rep) /\
    (3 <= Analyzer.data_points rep)%nat.
Proof.
  eexists. split.
  - vm_compute. reflexivity.
  - refine (proj1 (proj2 (data_points_count float64_sum (fun _ => None)
                            Samples.three_scores Samples.two_days_txs _ _))).
    vm_compute. reflexivity.
Defined.

Lemma spending_by_recovery_entries_witness :
  exists rep,
    Analyzer.analyze_spending_vs_recovery float64_sum (fun _ => None)
      Samples.three_scores Samples.two_days_txs = Ok (Analyzer.Report rep) /\
    In Analyzer.Medium (map fst (Analyzer.spending_by_recovery rep)).
Proof.
  eexists. split.
  - vm_compute. reflexivity.
  - refine (proj2 (proj1 (spending_by_recovery_entries float64_sum (fun _ => None)
                            Samples.three_scores Samples.two_days_txs _ _)
                     Analyzer.Medium) _).
    + vm_compute. reflexivity.
    + eexists. split; [left; reflexivity | reflexivity].
Defined.

(** ** The figures of the command line *)

Section CommandLine.
Import Analyzer Cli.
Open Scope Q_scope.

Lemma py_div_nonempty {A : Type} (x : Q) (first : A) (rest : list A) :
  py_div x (List.length (first :: rest))
  = Ok (x / inject_Z (Z.of_nat (List.length (first :: rest)))).
Proof. reflexivity. Qed.

Lemma recovery_insights_cases (l : list RecoveryRecord) :
  exists r, recovery_insights l = Ok r /\
            (r = [] \/ r = [RecoveryLow] \/ r = [RecoveryGreat]).
Proof.
  unfold recovery_insights. destruct l as [|r0 l]; [exists []; auto|].
  destruct (recovery_scores (last_n 3 (r0 :: l))) as [|s ss]; [exists []; auto|].
  rewrite py_div_nonempty. unfold rbind.
  destruct (Qlt_bool _ 50); [eexists; split; [reflexivity | auto]|].
  destruct (Qlt_bool 80 _); eexists; split; try reflexivity; auto.
Qed.

Lemma workout_insights_cases (l : list Workout) :
  (workout_insights l = [] /\ (List.length l = 0 \/ 1 <= List.length l < 5)%nat) \/
  (workout_insights l = [HighWorkoutFrequency] /\ (5 <= List.length l)%nat).
Proof.
  unfold workout_insights.
  destruct l as [|w0 l]; [left; split; [reflexivity | left; reflexivity]|].
  change (List.length (w0 :: l) =? 0)%nat with false. cbv iota.
  destruct (5 <=? List.length (w0 :: l))%nat eqn:E.
  - right. split; [reflexivity|]. now apply Nat.leb_le.
  - left. split; [reflexivity|]. apply Nat.leb_gt in E. simpl in *. lia.
Qed.

Lemma spending_insights_cases (l : list Transaction) :
  exists r, spending_insights l = Ok r /\
            (r = [] \/ r = [HighSpending] \/ r = [LowSpending]).
Proof.
  unfold spending_insights. destruct l as [|t0 l]; [exists []; auto|].
  destruct (nonzero_amounts (last_n 10 (t0 :: l))) as [|s ss]; [exists []; auto|].
  rewrite py_div_nonempty. unfold rbind.
  destruct (Qlt_bool 100 _); [eexists; split; [reflexivity | auto]|].
  destruct (Qlt_bool _ 20); eexists; split; try reflexivity; auto.
Qed.

(** X18: [quick_insights] never raises and gives at most three lines: at
    most one about recovery, at most one about spending, and about workouts
    only the high-frequency line, from five workouts on; the line "No workouts
    recorded" is never produced, since it is tested only when there is a
    workout. *)
Theorem quick_insights_lines (w : whoop_data) (c : copilot_data) :
  exists lines,
    quick_insights w c = Ok lines /\
    ~ In NoWorkouts lines /\
    (List.length lines <= 3)%nat /\
    ~ (In RecoveryLow lines /\ In RecoveryGreat lines) /\
    ~ (In HighSpending lines /\ In LowSpending lines) /\
    (In HighWorkoutFrequency lines <-> (5 <= List.length (workouts w))%nat).
Proof.
  unfold quick_insights.
  destruct (recovery_insights_cases (recovery w)) as [r [-> Hr]].
  destruct (spending_insights_cases (transactions c)) as [s [-> Hs]].
  simpl rbind. eexists. split; [reflexivity|].
  destruct (workout_insights_cases (workouts w)) as [[-> Hw] | [-> Hw]];
    destruct Hr as [-> | [-> | ->]]; destruct Hs as [-> | [-> | ->]]; simpl;
    (split; [intuition discriminate|]); (split; [lia|]);
    (split; [intuition discriminate|]); (split; [intuition discriminate|]);
    split; intros H; try lia; intuition (try discriminate; try lia).
Qed.

Lemma last_n_app {A : Type} (n : nat) (older recent : list A) :
  (n <= List.length recent)%nat -> last_n n (older ++ recent) = last_n n recent.
Proof.
  intros Hn. unfold last_n. rewrite length_app, skipn_app.
  replace (List.length older + List.length recent - n)%nat
    with (List.length older + (List.length recent - n))%nat by lia.
  rewrite skipn_all2 by lia. simpl. f_equal. lia.
Qed.

(** X19: [quick_insights] looks at the last three recovery records, the
    number of workouts and the last ten transactions only: older recovery
    records and older transactions change nothing. *)
Theorem quick_insights_uses_recent_data_only
    (w : whoop_data) (c : copilot_data)
    (older_recovery : list RecoveryRecord) (older_txs : list Transaction) :
  (3 <= List.length (recovery w))%nat ->
  (10 <= List.length (transactions c))%nat ->
  quick_insights
    {| sleep := sleep w; recovery := older_recovery ++ recovery w;
       workouts := workouts w; cycles := cycles w |}
    {| transactions := older_txs ++ transactions c; accounts := accounts c |}
  = quick_insights w c.
Proof.
  intros Hr Ht. unfold quick_insights. simpl.
  assert (H1 : recovery_insights (older_recovery ++ recovery w)
               = recovery_insights (recovery w)).
  { unfold recovery_insights. rewrite (last_n_app 3 _ _ Hr).
    destruct (recovery w) as [|r0 l]; [simpl in Hr; lia|].
    destruct (older_recovery ++ r0 :: l) eqn:E; [|reflexivity].
    apply app_eq_nil in E. destruct E. discriminate. }
  assert (H2 : spending_insights (older_txs ++ transactions c)
               = spending_insights (transactions c)).
  { unfold spending_insights. rewrite (last_n_app 10 _ _ Ht).
    destruct (transactions c) as [|t0 l]; [simpl in Ht; lia|].
    destruct (older_txs ++ t0 :: l) eqn:E; [|reflexivity].
    apply app_eq_nil in E. destruct E. discriminate. }
  now rewrite H1, H2.
Qed.

Lemma nonzero_amounts_sum (txs : list Transaction) :
  py_sum (nonzero_amounts txs) == py_sum (map tx_amount txs).
Proof.
  unfold nonzero_amounts. induction txs as [|t txs IH]; [reflexivity|]. simpl.
  destruct (Qeq_bool (tx_amount t) 0) eqn:E; simpl.
  - rewrite py_sum_cons, IH. apply Qeq_bool_iff in E. rewrite E. ring.
  - now rewrite !py_sum_cons, IH.
Qed.

(** X20: in [copilot_status], the "Total Spending" row is the sum of all
    transaction amounts (leaving out zero amounts changes nothing), while
    "Avg Transaction" is that total divided by the number of non-zero amounts
    only; the two rows are absent exactly when no amount is non-zero, and no
    division by zero takes place. *)
Theorem spending_rows_summary (txs : list Transaction) :
  exists rows,
    spending_rows txs = Ok rows /\
    (rows = None <-> nonzero_amounts txs = []) /\
    (forall total avg, rows = Some (total, avg) ->
       total = py_sum (nonzero_amounts txs) /\
       total == py_sum (map tx_amount txs) /\
       avg = total / inject_Z (Z.of_nat (List.length (nonzero_amounts txs)))).
Proof.
  unfold spending_rows. destruct txs as [|t0 ts].
  - exists None. split; [reflexivity|]. split; [tauto | discriminate].
  - destruct (nonzero_amounts (t0 :: ts)) as [|a rest] eqn:Hnz.
    + exists None. split; [reflexivity|]. split; [tauto | discriminate].
    + rewrite py_div_nonempty. unfold rbind. eexists. split; [reflexivity|].
      split; [split; discriminate|].
      intros total avg H. injection H as <- <-.
      split; [reflexivity|]. split; [|reflexivity].
      rewrite <- Hnz. apply nonzero_amounts_sum.
Qed.

End CommandLine.

(** ** The API clients *)

Section ApiClients.
Import Config OAuth TokenExpiry Api.

Variable parse_qsl : string -> list (string * string).
Variable net : Net.
Variable base_url : string.

(** What a checked response gives for the collection [key]. *)
Lemma checked_json_run (resp : http_response) (c : client) :
  checked_json resp c
  = (if status_ok (status_code resp) then json_body resp
     else Raise (HTTPError (status_code resp)), c).
Proof.
  unfold checked_json, status_ok.
  destruct ((400 <=? status_code resp) && (status_code resp <? 600)); reflexivity.
Qed.

Lemma get_headers_held (c : client) :
  truthy (access_token c) = true -> _get_headers parse_qsl net c = (Ok (access_token c), c).
Proof.
  intros H. unfold _get_headers, abind, read_access_token. rewrite H. reflexivity.
Qed.

Lemma call_get_valid_token_run (c : client) :
  call_get_valid_token parse_qsl net c
  = (fst (get_valid_token parse_qsl (auth_world net (auth_calls c)) (tokens c)),
     {| tokens := snd (get_valid_token parse_qsl (auth_world net (auth_calls c)) (tokens c));
        auth_calls := S (auth_calls c);
        access_token := access_token c;
        sent := sent c |}).
Proof.
  unfold call_get_valid_token.
  now destruct (get_valid_token parse_qsl (auth_world net (auth_calls c)) (tokens c)).
Qed.

(** The tail of every fetch once the token is settled. *)
Lemma fetch_tail (path key : string) (ps : list (string * json)) (c : client)
    (resp : http_response) :
  truthy (access_token c) = true ->
  http_get net (List.length (sent c))
    {| url := base_url ++ path; bearer := access_token c; params := ps |} = Ok resp ->
  (token <~ _get_headers parse_qsl net ;;
   response <~ requests_get net (base_url ++ path) token ps ;;
   body <~ checked_json response ;;
   alift (py_get_default body key (JArr []))) c
  = (if status_ok (status_code resp)
     then match json_body resp with
          | Ok body => py_get_default body key (JArr [])
          | Raise e => Raise e
          end
     else Raise (HTTPError (status_code resp)),
     {| tokens := tokens c; auth_calls := auth_calls c; access_token := access_token c;
        sent := sent c ++ [{| url := base_url ++ path; bearer := access_token c;
                              params := ps |}] |}).
Proof.
  intros Hheld Hget. unfold abind at 1. rewrite (get_headers_held c Hheld).
  unfold abind at 1, requests_get. rewrite Hget.
  unfold abind. rewrite checked_json_run.
  destruct (status_ok (status_code resp)); [|reflexivity].
  destruct (json_body resp); reflexivity.
Qed.

Lemma abind_ok {X Y : Type} (m : A X) (k : X -> A Y) (c c' : client) (x : X) :
  m c = (Ok x, c') -> abind m k c = k x c'.
Proof. intros H. unfold abind. now rewrite H. Qed.

Lemma abind_raise {X Y : Type} (m : A X) (k : X -> A Y) (c c' : client) (e : exn) :
  m c = (Raise e, c') -> abind m k c = (Raise e, c').
Proof. intros H. unfold abind. now rewrite H. Qed.

Lemma probe_run (c : client) (probe_resp : http_response) :
  http_get net (List.length (sent c))
    {| url := profile_url base_url; bearer := access_token c; params := [] |}
  = Ok probe_resp ->
  requests_get net (profile_url base_url) (access_token c) [] c
  = (Ok probe_resp,
     {| tokens := tokens c; auth_calls := auth_calls c; access_token := access_token c;
        sent := sent c ++ [{| url := profile_url base_url; bearer := access_token c;
                              params := [] |}] |}).
Proof. intros H. unfold requests_get. now rewrite H. Qed.

Lemma renew_run (c : client) :
  (t <~ call_get_valid_token parse_qsl net ;; set_access_token t) c
  = match get_valid_token parse_qsl (auth_world net (auth_calls c)) (tokens c) with
    | (Ok t, s') =>
        (Ok tt, {| tokens := s'; auth_calls := S (auth_calls c); access_token := t;
                   sent := sent c |})
    | (Raise e, s') =>
        (Raise e, {| tokens := s'; auth_calls := S (auth_calls c);
                     access_token := access_token c; sent := sent c |})
    end.
Proof.
  unfold abind. rewrite call_get_valid_token_run.
  destruct (get_valid_token parse_qsl (auth_world net (auth_calls c)) (tokens c))
    as [[t|e] s']; reflexivity.
Qed.

(** [_refresh_token_if_needed] with a held token and a probe answered with
    anything but 401. *)
Lemma refresh_after_probe (c : client) (probe_resp : http_response) :
  truthy (access_token c) = true ->
  http_get net (List.length (sent c))
    {| url := profile_url base_url; bearer := access_token c; params := [] |}
  = Ok probe_resp ->
  status_code probe_resp <> 401 ->
  _refresh_token_if_needed parse_qsl net base_url c
  = (Ok tt,
     {| tokens := tokens c; auth_calls := auth_calls c; access_token := access_token c;
        sent := sent c ++ [{| url := profile_url base_url; bearer := access_token c;
                              params := [] |}] |}).
Proof.
  intros Hheld Hprobe Hstatus. unfold _refresh_token_if_needed, try_except.
  rewrite (abind_ok _ _ _ _ _ (get_headers_held c Hheld)).
  rewrite (abind_ok _ _ _ _ _ (probe_run c probe_resp Hprobe)).
  apply Z.eqb_neq in Hstatus. rewrite Hstatus. reflexivity.
Qed.

(** [_refresh_token_if_needed] with a held token and a probe answered with
    401: one call of [get_valid_token], and a second one when the first
    raises. *)
Lemma refresh_after_401 (c : client) (probe_resp : http_response) :
  truthy (access_token c) = true ->
  http_get net (List.length (sent c))
    {| url := profile_url base_url; bearer := access_token c; params := [] |}
  = Ok probe_resp ->
  status_code probe_resp = 401 ->
  _refresh_token_if_needed parse_qsl net base_url c
  = let probe := {| url := profile_url base_url; bearer := access_token c; params := [] |} in
    match get_valid_token parse_qsl (auth_world net (auth_calls c)) (tokens c) with
    | (Ok t, s') =>
        (Ok tt, {| tokens := s'; auth_calls := S (auth_calls c); access_token := t;
                   sent := sent c ++ [probe] |})
    | (Raise _, s1) =>
        match get_valid_token parse_qsl (auth_world net (S (auth_calls c))) s1 with
        | (Ok t, s2) =>
            (Ok tt, {| tokens := s2; auth_calls := S (S (auth_calls c)); access_token := t;
                       sent := sent c ++ [probe] |})
        | (Raise e2, s2) =>
            (Raise e2, {| tokens := s2; auth_calls := S (S (auth_calls c));
                          access_token := access_token c; sent := sent c ++ [probe] |})
        end
    end.
Proof.
  intros Hheld Hprobe Hstatus. unfold _refresh_token_if_needed, try_except.
  rewrite (abind_ok _ _ _ _ _ (get_headers_held c Hheld)).
  rewrite (abind_ok _ _ _ _ _ (probe_run c probe_resp Hprobe)).
  rewrite Hstatus. simpl Z.eqb. cbv iota. rewrite renew_run.
  cbn [access_token sent tokens auth_calls].
  destruct (get_valid_token parse_qsl (auth_world net (auth_calls c)) (tokens c))
    as [[t|e1] s1]; [reflexivity|].
  rewrite renew_run. cbn [access_token sent tokens auth_calls].
  destruct (get_valid_token parse_qsl (auth_world net (S (auth_calls c))) s1)
    as [[t|e2] s2]; reflexivity.
Qed.

(** X21: with a token already held by the client and a profile probe that
    is answered with anything but 401, a collection fetch sends exactly two
    requests, the probe and the query itself, both with the held token and
    without consulting the token cache; a 4xx or 5xx answer raises
    [HTTPError], otherwise the result is the field of the body named after the
    collection, the empty list when the body has no such field. *)
Theorem fetch_with_held_token
    (path key : string) (start_date end_date : option string) (c : client)
    (probe_resp resp : http_response) :
  truthy (access_token c) = true ->
  http_get net (List.length (sent c))
    {| url := profile_url base_url; bearer := access_token c; params := [] |}
  = Ok probe_resp ->
  status_code probe_resp <> 401 ->
  http_get net (S (List.length (sent c)))
    {| url := base_url ++ path; bearer := access_token c;
       params := optional_param "start" start_date ++ optional_param "end" end_date |}
  = Ok resp ->
  get_collection parse_qsl net base_url path key start_date end_date c
  = (if status_ok (status_code resp)
     then match json_body resp with
          | Ok body => py_get_default body key (JArr [])
          | Raise e => Raise e
          end
     else Raise (HTTPError (status_code resp)),
     {| tokens := tokens c; auth_calls := auth_calls c; access_token := access_token c;
        sent := sent c ++
                [{| url := profile_url base_url; bearer := access_token c; params := [] |};
                 {| url := base_url ++ path; bearer := access_token c;
                    params := optional_param "start" start_date
                              ++ optional_param "end" end_date |}] |}).
Proof.
  intros Hheld Hprobe Hstatus Hget.
  unfold get_collection.
  rewrite (abind_ok _ _ _ _ _ (refresh_after_probe c probe_resp Hheld Hprobe Hstatus)).
  rewrite (fetch_tail path key _ _ resp); simpl.
  - now rewrite <- app_assoc.
  - exact Hheld.
  - rewrite length_app. simpl. now rewrite Nat.add_1_r.
Qed.

(** X22: when the probe is answered with 401, [get_valid_token] is called
    once and the query is sent with the token it returns; the rejected token
    was used for the probe only. *)
Theorem rejected_token_is_replaced
    (path key : string) (start_date end_date : option string) (c : client)
    (probe_resp resp : http_response) (t : json) (s' : OAuth.state) :
  truthy (access_token c) = true ->
  http_get net (List.length (sent c))
    {| url := profile_url base_url; bearer := access_token c; params := [] |}
  = Ok probe_resp ->
  status_code probe_resp = 401 ->
  get_valid_token parse_qsl (auth_world net (auth_calls c)) (tokens c) = (Ok t, s') ->
  truthy t = true ->
  http_get net (S (List.length (sent c)))
    {| url := base_url ++ path; bearer := t;
       params := optional_param "start" start_date ++ optional_param "end" end_date |}
  = Ok resp ->
  get_collection parse_qsl net base_url path key start_date end_date c
  = (if status_ok (status_code resp)
     then match json_body resp with
          | Ok body => py_get_default body key (JArr [])
          | Raise e => Raise e
          end
     else Raise (HTTPError (status_code resp)),
     {| tokens := s'; auth_calls := S (auth_calls c); access_token := t;
        sent := sent c ++
                [{| url := profile_url base_url; bearer := access_token c; params := [] |};
                 {| url := base_url ++ path; bearer := t;
                    params := optional_param "start" start_date
                              ++ optional_param "end" end_date |}] |}).
Proof.
  intros Hheld Hprobe Hstatus Hauth Ht Hget.
  pose proof (refresh_after_401 c probe_resp Hheld Hprobe Hstatus) as Hrefresh.
  cbv zeta in Hrefresh. rewrite Hauth in Hrefresh.
  unfold get_collection. rewrite (abind_ok _ _ _ _ _ Hrefresh).
  rewrite (fetch_tail path key _ _ resp); simpl.
  - now rewrite <- app_assoc.
  - exact Ht.
  - rewrite length_app. simpl. now rewrite Nat.add_1_r.
Qed.


(** X24: when the probe is answered with 401 and the renewal fails, the
    renewal is attempted a second time by the handler of the first failure; if
    it fails again that second error is raised, [get_valid_token] has been
    called twice and the query itself was never sent. *)
Theorem failed_renewal_is_attempted_twice
    (path key : string) (start_date end_date : option string) (c : client)
    (probe_resp : http_response) (e1 e2 : exn) (s1 s2 : OAuth.state) :
  truthy (access_token c) = true ->
  http_get net (List.length (sent c))
    {| url := profile_url base_url; bearer := access_token c; params := [] |}
  = Ok probe_resp ->
  status_code probe_resp = 401 ->
  get_valid_token parse_qsl (auth_world net (auth_calls c)) (tokens c) = (Raise e1, s1) ->
  get_valid_token parse_qsl (auth_world net (S (auth_calls c))) s1 = (Raise e2, s2) ->
  get_collection parse_qsl net base_url path key start_date end_date c
  = (Raise e2,
     {| tokens := s2; auth_calls := S (S (auth_calls c)); access_token := access_token c;
        sent := sent c ++
                [{| url := profile_url base_url; bearer := access_token c;
                    params := [] |}] |}).
Proof.
  intros Hheld Hprobe Hstatus Hfirst Hsecond.
  pose proof (refresh_after_401 c probe_resp Hheld Hprobe Hstatus) as Hrefresh.
  cbv zeta in Hrefresh. rewrite Hfirst, Hsecond in Hrefresh.
  unfold get_collection. now rewrite (abind_raise _ _ _ _ _ Hrefresh).
Qed.

End ApiClients.

(** ** The requests of one fetch *)

Section FetchOrder.
Import Config OAuth TokenExpiry Api.

Variable parse_qsl : string -> list (string * string).
Variable net : Net.
Variable base_url : string.
Variable copilot : copilot_client.

Lemma abind_inv {X Y : Type} (m : A X) (k : X -> A Y) (c c' : client) (y : Y) :
  abind m k c = (Ok y, c') -> exists x c1, m c = (Ok x, c1) /\ k x c1 = (Ok y, c').
Proof.
  unfold abind. destruct (m c) as [[x|e] c1]; [eauto | discriminate].
Qed.

Lemma call_keeps_sent (c c' : client) (r : result json) :
  call_get_valid_token parse_qsl net c = (r, c') -> sent c' = sent c.
Proof.
  rewrite (call_get_valid_token_run parse_qsl net c). intros H. now injection H as <- <-.
Qed.

Lemma renew_keeps_sent (c c' : client) (r : result unit) :
  (t <~ call_get_valid_token parse_qsl net ;; set_access_token t) c = (r, c') ->
  sent c' = sent c.
Proof.
  rewrite (renew_run parse_qsl net c).
  destruct (get_valid_token parse_qsl (auth_world net (auth_calls c)) (tokens c))
    as [[t|e] s']; intros H; now injection H as <- <-.
Qed.

Lemma headers_keep_sent (c c' : client) (r : result json) :
  _get_headers parse_qsl net c = (r, c') -> sent c' = sent c.
Proof.
  unfold _get_headers. unfold abind at 1. unfold read_access_token at 1.
  destruct (negb (truthy (access_token c))).
  - unfold abind at 1.
    destruct ((t <~ call_get_valid_token parse_qsl net ;; set_access_token t) c)
      as [[u|e] c1] eqn:Hrenew.
    + apply renew_keeps_sent in Hrenew. unfold read_access_token.
      intros H. injection H as <- <-. exact Hrenew.
    + apply renew_keeps_sent in Hrenew. intros H. injection H as <- <-. exact Hrenew.
  - unfold abind, aret, read_access_token. intros H. now injection H as <- <-.
Qed.

(** A token refresh sends the probe at most. *)
Lemma refresh_sends_probe_at_most (c c' : client) (r : result unit) :
  _refresh_token_if_needed parse_qsl net base_url c = (r, c') ->
  exists pre,
    sent c' = sent c ++ pre /\
    (List.length pre <= 1)%nat /\
    Forall (fun rq => url rq = profile_url base_url /\ params rq = []) pre.
Proof.
  unfold _refresh_token_if_needed, try_except.
  destruct ((token <~ _get_headers parse_qsl net ;;
             test_response <~ requests_get net (profile_url base_url) token [] ;;
             if status_code test_response =? 401
             then t <~ call_get_valid_token parse_qsl net ;; set_access_token t
             else aret tt) c) as [body_result c1] eqn:Hbody.
  assert (Hc1 : exists pre,
             sent c1 = sent c ++ pre /\ (List.length pre <= 1)%nat /\
             Forall (fun rq => url rq = profile_url base_url /\ params rq = []) pre).
  { unfold abind at 1 in Hbody.
    destruct (_get_headers parse_qsl net c) as [[token|e] c0] eqn:Hh.
    - apply headers_keep_sent in Hh.
      unfold abind at 1, requests_get in Hbody.
      destruct (http_get net (List.length (sent c0))
                  {| url := profile_url base_url; bearer := token; params := [] |})
        as [resp|e].
      + exists [{| url := profile_url base_url; bearer := token; params := [] |}].
        assert (Hsent : sent c1 = sent c0 ++
                  [{| url := profile_url base_url; bearer := token; params := [] |}]).
        { destruct (status_code resp =? 401).
          - apply renew_keeps_sent in Hbody. exact Hbody.
          - unfold aret in Hbody. now injection Hbody as <- <-. }
        rewrite Hsent, Hh. split; [reflexivity|]. split; [simpl; lia|].
        repeat constructor.
      + injection Hbody as <- <-. simpl. rewrite Hh.
        exists [{| url := profile_url base_url; bearer := token; params := [] |}].
        split; [reflexivity|]. split; [simpl; lia|]. repeat constructor.
    - injection Hbody as <- <-. apply headers_keep_sent in Hh.
      exists []. rewrite Hh, app_nil_r. split; [reflexivity|]. split; [simpl; lia|].
      constructor. }
  destruct body_result as [u|e].
  - intros H. injection H as <- <-. exact Hc1.
  - intros H. apply renew_keeps_sent in H. rewrite H. exact Hc1.
Qed.

Lemma checked_json_keeps (resp : http_response) (c c' : client) (r : result json) :
  checked_json resp c = (r, c') -> c' = c.
Proof.
  rewrite checked_json_run. intros H. now injection H as <- <-.
Qed.

(** A collection fetch that returns has sent the probe at most and then
    its own query. *)
Lemma collection_requests (path key : string) (start_date end_date : option string)
    (c c' : client) (v : json) :
  get_collection parse_qsl net base_url path key start_date end_date c = (Ok v, c') ->
  exists pre token,
    sent c' = sent c ++ pre ++
              [{| url := base_url ++ path; bearer := token;
                  params := optional_param "start" start_date
                            ++ optional_param "end" end_date |}] /\
    (List.length pre <= 1)%nat /\
    Forall (fun rq => url rq = profile_url base_url /\ params rq = []) pre.
Proof.
  unfold get_collection. intros H.
  apply abind_inv in H. destruct H as [u [c1 [Hrefresh H]]].
  apply abind_inv in H. destruct H as [token [c2 [Hheaders H]]].
  apply abind_inv in H. destruct H as [resp [c3 [Hget H]]].
  apply abind_inv in H. destruct H as [body [c4 [Hcheck H]]].
  apply checked_json_keeps in Hcheck. subst c4.
  unfold alift in H. injection H as _ <-.
  destruct (refresh_sends_probe_at_most _ _ _ Hrefresh) as [pre [Hpre [Hlen Hall]]].
  apply headers_keep_sent in Hheaders.
  unfold requests_get in Hget. injection Hget as _ <-. simpl.
  exists pre, token. rewrite Hheaders, Hpre, <- app_assoc. repeat split; assumption.
Qed.

Lemma copilot_get_request (path : string) (ps : list (string * json))
    (c c' : client) (v : json) :
  copilot_get net copilot path ps c = (Ok v, c') ->
  sent c' = sent c ++ [{| url := copilot_url copilot ++ path;
                          bearer := JStr (api_key copilot); params := ps |}].
Proof.
  unfold copilot_get. intros H.
  apply abind_inv in H. destruct H as [resp [c1 [Hget H]]].
  apply checked_json_keeps in H. subst c'.
  unfold requests_get in Hget. now injection Hget as _ <-.
Qed.

(** X25: when [get_date_range_data] returns, it has sent, in this order,
    the queries for sleep, recovery, workouts and cycles with the [start] and
    [end] dates, each preceded by one profile probe at most, then the
    transactions query with [limit] 100 and the dates, the accounts query and
    the insights query, the last three with the Copilot API key; nothing
    else. *)
Theorem date_range_requests (start_date end_date : string) (c c' : client)
    (data : fetched) :
  start_date <> ""%string -> end_date <> ""%string ->
  get_date_range_data parse_qsl net base_url copilot start_date end_date c = (Ok data, c') ->
  let whoop_query path token :=
    {| url := base_url ++ path; bearer := token;
       params := [("start"%string, JStr start_date); ("end"%string, JStr end_date)] |} in
  let copilot_query path ps :=
    {| url := copilot_url copilot ++ path; bearer := JStr (api_key copilot);
       params := ps |} in
  let dates := [("start_date"%string, JStr start_date);
                ("end_date"%string, JStr end_date)] in
  exists p1 p2 p3 p4 t1 t2 t3 t4,
    sent c' = sent c
              ++ p1 ++ [whoop_query "/v1/cycle/sleep" t1]
              ++ p2 ++ [whoop_query "/v1/cycle/recovery" t2]
              ++ p3 ++ [whoop_query "/v1/cycle/workout" t3]
              ++ p4 ++ [whoop_query "/v1/cycle" t4]
              ++ [copilot_query "/v1/transactions" (("limit"%string, JNum 100) :: dates);
                  copilot_query "/v1/accounts" [];
                  copilot_query "/v1/insights" dates] /\
    Forall (fun p => (List.length p <= 1)%nat /\
                     Forall (fun rq => url rq = profile_url base_url /\ params rq = []) p)
      [p1; p2; p3; p4].
Proof.
  intros Hs He Hrun whoop_query copilot_query dates.
  assert (Hps : forall k1 k2,
             optional_param k1 (Some start_date) ++ optional_param k2 (Some end_date)
             = [(k1, JStr start_date); (k2, JStr end_date)]).
  { intros k1 k2. unfold optional_param. simpl.
    apply String.eqb_neq in Hs, He. now rewrite Hs, He. }
  unfold get_date_range_data in Hrun.
  apply abind_inv in Hrun. destruct Hrun as [v1 [c1 [H1 Hrun]]].
  apply abind_inv in Hrun. destruct Hrun as [v2 [c2 [H2 Hrun]]].
  apply abind_inv in Hrun. destruct Hrun as [v3 [c3 [H3 Hrun]]].
  apply abind_inv in Hrun. destruct Hrun as [v4 [c4 [H4 Hrun]]].
  apply abind_inv in Hrun. destruct Hrun as [v5 [c5 [H5 Hrun]]].
  apply abind_inv in Hrun. destruct Hrun as [v6 [c6 [H6 Hrun]]].
  apply abind_inv in Hrun. destruct Hrun as [v7 [c7 [H7 Hrun]]].
  unfold aret in Hrun. injection Hrun as _ <-.
  apply collection_requests in H1. destruct H1 as [p1 [t1 [S1 [L1 F1]]]].
  apply collection_requests in H2. destruct H2 as [p2 [t2 [S2 [L2 F2]]]].
  apply collection_requests in H3. destruct H3 as [p3 [t3 [S3 [L3 F3]]]].
  apply collection_requests in H4. destruct H4 as [p4 [t4 [S4 [L4 F4]]]].
  unfold get_transactions in H5. apply abind_inv in H5.
  destruct H5 as [b5 [c5' [H5 H5']]]. unfold alift in H5'. injection H5' as _ <-.
  apply copilot_get_request in H5.
  unfold get_accounts in H6. apply abind_inv in H6.
  destruct H6 as [b6 [c6' [H6 H6']]]. unfold alift in H6'. injection H6' as _ <-.
  apply copilot_get_request in H6.
  unfold get_insights in H7. apply copilot_get_request in H7.
  rewrite Hps in S1, S2, S3, S4, H7.
  assert (Hlimit : [("limit"%string, JNum 100)]
                   ++ optional_param "start_date" (Some start_date)
                   ++ optional_param "end_date" (Some end_date)
                   ++ optional_param "account_id" None
                   = ("limit"%string, JNum 100) :: dates).
  { unfold optional_param at 3. simpl opt_truthy. cbv iota. rewrite app_nil_r.
    now rewrite Hps. }
  rewrite Hlimit in H5.
  exists p1, p2, p3, p4, t1, t2, t3, t4. split.
  - rewrite H7, H6, H5, S4, S3, S2, S1. unfold whoop_query, copilot_query.
    rewrite <- !app_assoc. reflexivity.
  - repeat (apply Forall_cons; split; [split; assumption|]). apply Forall_nil_2.
Qed.

End FetchOrder.

Lemma quick_insights_uses_recent_data_only_witness :
  Cli.quick_insights
    {| Analyzer.sleep := []; Analyzer.recovery := Samples.three_scores ++ Samples.three_scores;
       Analyzer.workouts := Samples.two_days_workouts; Analyzer.cycles := [] |}
    {| Analyzer.transactions := Samples.two_days_txs ++ RunSamples.ten_txs;
       Analyzer.accounts := [] |}
  = Cli.quick_insights RunSamples.recent_whoop RunSamples.recent_copilot.
Proof.
  apply (quick_insights_uses_recent_data_only RunSamples.recent_whoop
           RunSamples.recent_copilot Samples.three_scores Samples.two_days_txs);
    simpl; lia.
Defined.

Lemma fetch_with_held_token_witness :
  fst (Api.get_recovery_data OAuth.plain_parse_qsl (ApiSamples.calm_net OAuth.granting_world)
         "https://w" (Some "2024-01-01"%string) None (ApiSamples.held_client Config.Absent))
  = Ok (JArr [JNum 1]).
Proof.
  refine (f_equal fst
            (fetch_with_held_token OAuth.plain_parse_qsl
               (ApiSamples.calm_net OAuth.granting_world) "https://w"
               "/v1/cycle/recovery" "recovery" (Some "2024-01-01"%string) None
               (ApiSamples.held_client Config.Absent)
               {| OAuth.status_code := 200;
                  OAuth.json_body := Ok (JObj (<["recovery"%string := JArr [JNum 1]]> ∅)) |}
               {| OAuth.status_code := 200;
                  OAuth.json_body := Ok (JObj (<["recovery"%string := JArr [JNum 1]]> ∅)) |}
               _ _ _ _));
    try reflexivity. discriminate.
Defined.

Lemma rejected_token_is_replaced_witness :
  Api.access_token
    (snd (Api.get_recovery_data OAuth.plain_parse_qsl
            (ApiSamples.rejecting_net TokenExpiry.later_world) "https://w" None None
            (ApiSamples.held_client TokenExpiry.stale_cache)))
  = JStr "A".
Proof.
  refine (f_equal (fun run => Api.access_token (snd run))
            (rejected_token_is_replaced OAuth.plain_parse_qsl
               (ApiSamples.rejecting_net TokenExpiry.later_world) "https://w"
               "/v1/cycle/recovery" "recovery" None None
               (ApiSamples.held_client TokenExpiry.stale_cache)
               {| OAuth.status_code := 401;
                  OAuth.json_body := Ok (JObj (<["recovery"%string := JArr [JNum 1]]> ∅)) |}
               {| OAuth.status_code := 200;
                  OAuth.json_body := Ok (JObj (<["recovery"%string := JArr [JNum 1]]> ∅)) |}
               (JStr "A")
               (snd (OAuth.get_valid_token OAuth.plain_parse_qsl TokenExpiry.later_world
                       {| OAuth.file := TokenExpiry.stale_cache; OAuth.trace := [] |}))
               _ _ _ _ _ _));
    try reflexivity; vm_compute; reflexivity.
Defined.


Lemma failed_renewal_is_attempted_twice_witness :
  Api.auth_calls
    (snd (Api.get_recovery_data OAuth.plain_parse_qsl
            (ApiSamples.rejecting_net TokenExpiry.failing_world) "https://w" None None
            (ApiSamples.held_client TokenExpiry.stale_cache)))
  = 2%nat.
Proof.
  refine (f_equal (fun run => Api.auth_calls (snd run))
            (failed_renewal_is_attempted_twice OAuth.plain_parse_qsl
               (ApiSamples.rejecting_net TokenExpiry.failing_world) "https://w"
               "/v1/cycle/recovery" "recovery" None None
               (ApiSamples.held_client TokenExpiry.stale_cache)
               {| OAuth.status_code := 401;
                  OAuth.json_body := Ok (JObj (<["recovery"%string := JArr [JNum 1]]> ∅)) |}
               (HTTPError 500) (HTTPError 500)
               {| OAuth.file := TokenExpiry.stale_cache;
                  OAuth.trace := [OAuth.Post (OAuth.RefreshToken (JStr "R0"))] |}
               {| OAuth.file := TokenExpiry.stale_cache;
                  OAuth.trace := [OAuth.Post (OAuth.RefreshToken (JStr "R0"));
                                  OAuth.Post (OAuth.RefreshToken (JStr "R0"))] |}
               _ _ _ _ _));
    try reflexivity; vm_compute; reflexivity.
Defined.

Lemma date_range_requests_witness :
  (7 <= List.length (Api.sent (snd RunSamples.sample_fetch)))%nat.
Proof.
  destruct (date_range_requests OAuth.plain_parse_qsl
              (ApiSamples.calm_net OAuth.granting_world) "https://w"
              ApiSamples.sample_copilot "2024-01-01" "2024-01-31"
              (ApiSamples.held_client Config.Absent)
              (snd RunSamples.sample_fetch) RunSamples.sample_data)
    as [p1 [p2 [p3 [p4 [t1 [t2 [t3 [t4 [Hsent _]]]]]]]]].
  - discriminate.
  - discriminate.
  - vm_compute. reflexivity.
  - rewrite Hsent. rewrite !length_app. simpl. lia.
Defined.
